(** * Security report aggregation and badge rendering

    A shallow embedding of the scripts
    [scripts/security-report.py], [scripts/security-badge.py],
    [scripts/coverage-badge.py], [scripts/checkov-badge.py] and
    [scripts/release-badge.py], followed by the properties that the
    specification states about them and by further properties of the code.

    Conventions of the embedding.
    - A value obtained from [json.load] is a [json]; a JSON number is an
      integer (the scanners report counts), held as a [Z]; a number written
      with a fraction or an exponent, which [json.load] turns into a [float],
      is not among the values.  Python's [None] and JSON's [null] are the
      same Python value, [JNull].
    - A Python [dict] is a [gmap] from its string keys.
    - A Python [str] is a [string]; [len] is [String.length], which is the
      number of characters for the ASCII text the badge templates produce.
      The advisory texts start with an emoji, kept as its UTF-8 bytes; they
      are only compared, never measured.
    - An exception that nothing catches ends the run: a function that can
      raise returns a [result].
    - The file system is a finite map from paths to file contents.  A content
      is text that [json.load] rejects with [JSONDecodeError], the value that
      the text parses to, or the exception with which [open] or [json.load]
      ends otherwise.  A path that is not in the map is a file that does not
      exist.
    - Floating point is binary64, held as a [spec_float] of the Standard
      Library with precision 53 and maximal exponent 1024. *)

From Stdlib Require Import ZArith String Ascii List DecimalString.
From Stdlib Require SpecFloat.
From stdpp Require Import base option gmap strings list.

#[local] Open Scope string_scope.
#[local] Open Scope Z_scope.

#[local] Set Warnings "-register-all".

(** ** Python values and the operations the scripts apply to them *)

Module Py.

Inductive json : Type :=
  | JNull
  | JBool (b : bool)
  | JInt (z : Z)
  | JStr (s : string)
  | JArr (l : list json)
  | JObj (m : gmap string json).

(** Truth value of an object, as tested by [if x:]. *)
Definition truthy (v : json) : bool :=
  match v with
  | JNull => false
  | JBool b => b
  | JInt z => negb (z =? 0)
  | JStr s => negb (Nat.eqb (String.length s) 0)
  | JArr l => negb (Nat.eqb (List.length l) 0)
  | JObj m => negb (Nat.eqb (size m) 0)
  end.

Definition is_object (v : json) : bool :=
  match v with
  | JObj _ => true
  | _ => false
  end.

(** The exceptions that the scripts can end with: the two that an
    operation on a value of the wrong type raises, those of [open] and
    [json.load] other than [FileNotFoundError] and [JSONDecodeError], and
    those of arithmetic. *)
Inductive exn : Type :=
  | AttributeError
  | TypeError
  | PermissionError
  | IsADirectoryError
  | UnicodeDecodeError
  | RecursionError
  | ValueError
  | ZeroDivisionError
  | OverflowError.

Inductive result (A : Type) : Type :=
  | Ok (a : A)
  | Raise (e : exn).

Arguments Ok {A} a.
Arguments Raise {A} e.

#[global] Instance result_ret : MRet result := fun A a => Ok a.

#[global] Instance result_bind : MBind result := fun A B f m =>
  match m with
  | Ok a => f a
  | Raise e => Raise e
  end.

(** [v.get(key, default)]: only a dict has the method. *)
Definition get (v : json) (key : string) (dflt : json) : result json :=
  match v with
  | JObj m => Ok (default dflt (m !! key))
  | _ => Raise AttributeError
  end.

(** [len(v)]: defined on strings, lists and dicts. *)
Definition len (v : json) : result Z :=
  match v with
  | JStr s => Ok (Z.of_nat (String.length s))
  | JArr l => Ok (Z.of_nat (List.length l))
  | JObj m => Ok (Z.of_nat (size m))
  | _ => Raise TypeError
  end.

(** [n + v] for an integer [n]: [bool] is a subclass of [int]. *)
Definition add (n : Z) (v : json) : result Z :=
  match v with
  | JInt z => Ok (n + z)
  | JBool b => Ok (n + Z.b2z b)
  | _ => Raise TypeError
  end.

(** [str(z)], which is also what [f"{z}"] inserts. *)
Definition str (z : Z) : string := NilZero.string_of_int (Z.to_int z).

(** A template literal of the scripts is written here with ['] where the
    script has a double quote; [tpl] puts the double quotes back. *)
Fixpoint tpl (s : string) : string :=
  match s with
  | EmptyString => EmptyString
  | String c s' => String (if Ascii.eqb c "'" then "034"%char else c) (tpl s')
  end.

End Py.

Import Py.

(** ** Python's [float]

    A [float] is an IEEE 754 binary64 number; every operation rounds to the
    nearest, ties to even. *)

Module PyFloat.

Import SpecFloat.

Definition float : Type := spec_float.



(** An integer as an exact binary number, whatever its size. *)
Definition exact (z : Z) : float :=
  match z with
  | Z0 => S754_zero false
  | Zpos p => S754_finite false p 0
  | Zneg p => S754_finite true p 0
  end.




(** [int(x)]: the fractional part is dropped. *)
Definition to_int (x : float) : result Z :=
  match x with
  | S754_zero _ => Ok 0
  | S754_finite s m e =>
    let magnitude :=
      if 0 <=? e then Zpos m * 2 ^ e else Zpos m / 2 ^ (- e) in
    Ok (if s then - magnitude else magnitude)
  | S754_infinity _ => Raise OverflowError
  | S754_nan => Raise ValueError
  end.

End PyFloat.

(** ** [scripts/security-report.py] *)

Module SecurityReport.

(** What a path holds, by what [open] and [json.load] do with it: text that
    [json.load] rejects with [JSONDecodeError]; text that parses to a value;
    or a file on which one of the two raises another exception
    ([PermissionError] or [IsADirectoryError] from [open],
    [UnicodeDecodeError] for bytes that are not text in the encoding of the
    run, [RecursionError] for nesting that is too deep, [ValueError] for an
    integer literal that is too long). *)
Inductive content : Type :=
  | Unparsable
  | Parses (v : json)
  | Fails (e : exn).

(** [load_json_file]: [FileNotFoundError] and [JSONDecodeError] are caught
    and turned into [None]; any other exception leaves the function. *)
Definition load_json_file (fs : gmap string content) (file_path : string)
    : result json :=
  match fs !! file_path with
  | None => Ok JNull
  | Some Unparsable => Ok JNull
  | Some (Parses v) => Ok v
  | Some (Fails e) => Raise e
  end.

(** [report["summary"]] *)
Record summary : Type := Summary {
  total_issues : Z;
  critical_issues : Z;
  high_issues : Z;
  medium_issues : Z;
  low_issues : Z;
  info_issues : Z
}.

(** The [report] dict.  The keys [security_score] and [security_grade] are
    set last; before that they are absent. *)
Record report : Type := Report {
  r_timestamp : string;
  r_summary : summary;
  r_tools : gmap string json;
  r_recommendations : list string;
  r_security_score : option Z;
  r_security_grade : option string
}.

(** The report as initialised, before any tool is processed. *)
Definition initial_report (now : string) : report :=
  {| r_timestamp := now;
     r_summary := Summary 0 0 0 0 0 0;
     r_tools := ∅;
     r_recommendations := [];
     r_security_score := None;
     r_security_grade := None |}.

(** [report["tools"][name] = entry] *)
Definition set_tool (name : string) (entry : json) (r : report) : report :=
  {| r_timestamp := r_timestamp r;
     r_summary := r_summary r;
     r_tools := <[name := entry]> (r_tools r);
     r_recommendations := r_recommendations r;
     r_security_score := r_security_score r;
     r_security_grade := r_security_grade r |}.

Definition set_summary (s : summary) (r : report) : report :=
  {| r_timestamp := r_timestamp r;
     r_summary := s;
     r_tools := r_tools r;
     r_recommendations := r_recommendations r;
     r_security_score := r_security_score r;
     r_security_grade := r_security_grade r |}.

(** [{"status": "failed", "issues_found": 0}] *)
Definition failed_entry : json :=
  JObj (<["status" := JStr "failed"]> (<["issues_found" := JInt 0]> ∅)).

(** The block under [# Process Checkov results]. *)
Definition process_checkov (checkov_results : json) (r : report) : result report :=
  if truthy checkov_results then
    checkov_issues ← get checkov_results "failed" (JInt 0);
    passed ← get checkov_results "passed" (JInt 0);
    skipped ← get checkov_results "skipped" (JInt 0);
    let r1 := set_tool "checkov"
      (JObj (<["status" := JStr "completed"]>
            (<["issues_found" := checkov_issues]>
            (<["passed" := passed]>
            (<["skipped" := skipped]> ∅))))) r in
    let s := r_summary r1 in
    total ← add (total_issues s) checkov_issues;
    medium ← add (medium_issues s) checkov_issues;
    mret (set_summary
      (Summary total (critical_issues s) (high_issues s)
               medium (low_issues s) (info_issues s)) r1)
  else
    mret (set_tool "checkov" failed_entry r).

(** The block under [# Process Trivy results]. *)
Definition process_trivy (trivy_results : json) (r : report) : result report :=
  if truthy trivy_results then
    vulnerabilities ← get trivy_results "Results" (JArr []);
    trivy_issues ← len vulnerabilities;
    let r1 := set_tool "trivy"
      (JObj (<["status" := JStr "completed"]>
            (<["issues_found" := JInt trivy_issues]>
            (<["vulnerabilities" := vulnerabilities]> ∅)))) r in
    let s := r_summary r1 in
    mret (set_summary
      (Summary (total_issues s + trivy_issues) (critical_issues s)
               (high_issues s + trivy_issues)
               (medium_issues s) (low_issues s) (info_issues s)) r1)
  else
    mret (set_tool "trivy" failed_entry r).

(** The block under [# Process Gosec results]. *)
Definition process_gosec (gosec_results : json) (r : report) : result report :=
  if truthy gosec_results then
    found ← get gosec_results "Issues" (JArr []);
    gosec_issues ← len found;
    issues ← get gosec_results "Issues" (JArr []);
    let r1 := set_tool "gosec"
      (JObj (<["status" := JStr "completed"]>
            (<["issues_found" := JInt gosec_issues]>
            (<["issues" := issues]> ∅)))) r in
    let s := r_summary r1 in
    mret (set_summary
      (Summary (total_issues s + gosec_issues) (critical_issues s)
               (high_issues s)
               (medium_issues s + gosec_issues)
               (low_issues s) (info_issues s)) r1)
  else
    mret (set_tool "gosec" failed_entry r).

(** The block under [# Process Semgrep results]. *)
Definition process_semgrep (semgrep_results : json) (r : report) : result report :=
  if truthy semgrep_results then
    found ← get semgrep_results "results" (JArr []);
    semgrep_issues ← len found;
    results ← get semgrep_results "results" (JArr []);
    let r1 := set_tool "semgrep"
      (JObj (<["status" := JStr "completed"]>
            (<["issues_found" := JInt semgrep_issues]>
            (<["results" := results]> ∅)))) r in
    let s := r_summary r1 in
    mret (set_summary
      (Summary (total_issues s + semgrep_issues) (critical_issues s)
               (high_issues s) (medium_issues s)
               (low_issues s + semgrep_issues)
               (info_issues s)) r1)
  else
    mret (set_tool "semgrep" failed_entry r).

(** The four advisory texts. *)
Definition critical_advice : string :=
  "🚨 Critical issues found - immediate action required".
Definition high_advice : string :=
  "⚠️ High priority issues found - address within 24 hours".
Definition medium_advice : string :=
  "📋 Medium priority issues found - address within 1 week".
Definition low_advice : string :=
  "ℹ️ Low priority issues found - address when convenient".

(** The block under [# Generate recommendations]: what the four [append]s
    leave in the list, which is empty before them. *)
Definition generate_recommendations (s : summary) : list string :=
  (if 0 <? critical_issues s then [critical_advice] else []) ++
  (if 0 <? high_issues s then [high_advice] else []) ++
  (if 0 <? medium_issues s then [medium_advice] else []) ++
  (if 0 <? low_issues s then [low_advice] else []).

(** The block under [# Calculate security score]. *)
Definition security_score (total_issues : Z) : Z :=
  if total_issues =? 0 then 100
  else if total_issues <=? 2 then 95
  else if total_issues <=? 5 then 85
  else if total_issues <=? 10 then 70
  else 50.

Definition get_security_grade (score : Z) : string :=
  if 95 <=? score then "A+"
  else if 90 <=? score then "A"
  else if 80 <=? score then "B"
  else if 70 <=? score then "C"
  else if 60 <=? score then "D"
  else "F".

(** The last assignments to [report]: recommendations, score and grade. *)
Definition finish (r : report) : report :=
  let score := security_score (total_issues (r_summary r)) in
  {| r_timestamp := r_timestamp r;
     r_summary := r_summary r;
     r_tools := r_tools r;
     r_recommendations :=
       r_recommendations r ++ generate_recommendations (r_summary r);
     r_security_score := Some score;
     r_security_grade := Some (get_security_grade score) |}.

(** [generate_security_report], run on a file system at the instant [now].
    The value is the report that the function returns and serialises to
    [docs/badges/security-results.json]; the write itself is not part of the
    embedding. *)
Definition generate_security_report
    (fs : gmap string content) (now : string) : result report :=
  checkov_results ← load_json_file fs "checkov-results.json";
  trivy_results ← load_json_file fs "trivy-results.json";
  gosec_results ← load_json_file fs "gosec-results.json";
  semgrep_results ← load_json_file fs "semgrep-results.json";
  r1 ← process_checkov checkov_results (initial_report now);
  r2 ← process_trivy trivy_results r1;
  r3 ← process_gosec gosec_results r2;
  r4 ← process_semgrep semgrep_results r3;
  mret (finish r4).

End SecurityReport.

(** ** [scripts/security-badge.py] *)

Module SecurityBadge.

(** [create_security_badge]; the result is the tuple
    [(svg, status, color, message)].  The parameter [issues_count] is not
    read by the function. *)
Definition create_security_badge (score : Z) (grade : string) (issues_count : Z)
    : string * string * string * string :=
  let '(color, status) :=
    if 95 <=? score then ("brightgreen", "excellent")
    else if 90 <=? score then ("green", "good")
    else if 80 <=? score then ("yellow", "fair")
    else if 70 <=? score then ("orange", "poor")
    else ("red", "critical") in
  let message := str score +:+ "/100 (" +:+ grade +:+ ")" in
  let text_width := Z.of_nat (String.length message) * 6 + 20 in
  let svg :=
    tpl "<svg xmlns='http://www.w3.org/2000/svg' width='" +:+
    str (text_width + 80) +:+
    tpl "' height='20'>
  <linearGradient id='b' x2='0' y2='100%'>
    <stop offset='0' stop-color='#bbb' stop-opacity='.1'/>
    <stop offset='1' stop-opacity='.1'/>
  </linearGradient>
  <mask id='a'>
    <rect width='100%' height='100%' rx='3' fill='#fff'/>
  </mask>
  <g mask='url(#a)'>
    <path fill='#555' d='M0 0h60v20H0z'/>
    <path fill='" +:+
    color +:+
    tpl "' d='M60 0h" +:+
    str text_width +:+
    tpl "v20H60z'/>
  </g>
  <rect width='100%' height='100%' rx='3' fill='none' stroke='rgba(0,0,0,.1)'/>
  <g fill='#fff' text-anchor='middle' font-family='DejaVu Sans,Verdana,Geneva,sans-serif' font-size='11'>
    <text x='30' y='14' fill='#010101' fill-opacity='.3'>security</text>
    <text x='30' y='13' fill='#fff'>security</text>
    <text x='" +:+
    str (60 + text_width / 2) +:+
    tpl "' y='14' fill='#010101' fill-opacity='.3'>" +:+
    message +:+
    tpl "</text>
    <text x='" +:+
    str (60 + text_width / 2) +:+
    tpl "' y='13' fill='#fff'>" +:+
    message +:+
    tpl "</text>
  </g>
</svg>" in
  (svg, status, color, message).

(** [create_issues_badge] *)
Definition create_issues_badge (issues_count : Z)
    : string * string * string * string :=
  let '(color, status, message) :=
    if issues_count =? 0 then ("brightgreen", "clean", "0 issues")
    else if issues_count <=? 2 then
      ("yellow", "minor", str issues_count +:+ " issues")
    else if issues_count <=? 5 then
      ("orange", "moderate", str issues_count +:+ " issues")
    else ("red", "major", str issues_count +:+ " issues") in
  let text_width := Z.of_nat (String.length message) * 6 + 20 in
  let svg :=
    tpl "<svg xmlns='http://www.w3.org/2000/svg' width='" +:+
    str (text_width + 80) +:+
    tpl "' height='20'>
  <linearGradient id='b' x2='0' y2='100%'>
    <stop offset='0' stop-color='#bbb' stop-opacity='.1'/>
    <stop offset='1' stop-opacity='.1'/>
  </linearGradient>
  <mask id='a'>
    <rect width='100%' height='100%' rx='3' fill='#fff'/>
  </mask>
  <g mask='url(#a)'>
    <path fill='#555' d='M0 0h60v20H0z'/>
    <path fill='" +:+
    color +:+
    tpl "' d='M60 0h" +:+
    str text_width +:+
    tpl "v20H60z'/>
  </g>
  <rect width='100%' height='100%' rx='3' fill='none' stroke='rgba(0,0,0,.1)'/>
  <g fill='#fff' text-anchor='middle' font-family='DejaVu Sans,Verdana,Geneva,sans-serif' font-size='11'>
    <text x='30' y='14' fill='#010101' fill-opacity='.3'>issues</text>
    <text x='30' y='13' fill='#fff'>issues</text>
    <text x='" +:+
    str (60 + text_width / 2) +:+
    tpl "' y='14' fill='#010101' fill-opacity='.3'>" +:+
    message +:+
    tpl "</text>
    <text x='" +:+
    str (60 + text_width / 2) +:+
    tpl "' y='13' fill='#fff'>" +:+
    message +:+
    tpl "</text>
  </g>
</svg>" in
  (svg, status, color, message).

End SecurityBadge.

(** ** [scripts/coverage-badge.py] *)

Module CoverageBadge.

Section Coverage.

(** The coverage percentage is a Python [float].  The badge only compares
    it with integer thresholds and formats it with one decimal; both are
    taken as given. *)
Variable float : Type.
Variable ge : float -> Z -> bool.
Variable format_1f : float -> string.

(** [generate_coverage_badge]; [None] is the absence of coverage data. *)
Definition generate_coverage_badge (coverage_percent : option float)
    : string * string * string * string :=
  let '(status, color, message) :=
    match coverage_percent with
    | None => ("unknown", "lightgrey", "No data")
    | Some c =>
      if ge c 90 then ("excellent", "brightgreen", format_1f c +:+ "%")
      else if ge c 80 then ("good", "green", format_1f c +:+ "%")
      else if ge c 70 then ("fair", "yellow", format_1f c +:+ "%")
      else if ge c 60 then ("poor", "orange", format_1f c +:+ "%")
      else ("critical", "red", format_1f c +:+ "%")
    end in
  let text_width := Z.of_nat (String.length message) * 6 + 20 in
  let svg :=
    tpl "<svg xmlns='http://www.w3.org/2000/svg' width='" +:+
    str (text_width + 80) +:+
    tpl "' height='20'>
  <linearGradient id='b' x2='0' y2='100%'>
    <stop offset='0' stop-color='#bbb' stop-opacity='.1'/>
    <stop offset='1' stop-opacity='.1'/>
  </linearGradient>
  <mask id='a'>
    <rect width='100%' height='100%' rx='3' fill='#fff'/>
  </mask>
  <g mask='url(#a)'>
    <path fill='#555' d='M0 0h60v20H0z'/>
    <path fill='" +:+
    color +:+
    tpl "' d='M60 0h" +:+
    str text_width +:+
    tpl "v20H60z'/>
  </g>
  <rect width='100%' height='100%' rx='3' fill='none' stroke='rgba(0,0,0,.1)'/>
  <g fill='#fff' text-anchor='middle' font-family='DejaVu Sans,Verdana,Geneva,sans-serif' font-size='11'>
    <text x='30' y='14' fill='#010101' fill-opacity='.3'>coverage</text>
    <text x='30' y='13' fill='#fff'>coverage</text>
    <text x='" +:+
    str (60 + text_width / 2) +:+
    tpl "' y='14' fill='#010101' fill-opacity='.3'>" +:+
    message +:+
    tpl "</text>
    <text x='" +:+
    str (60 + text_width / 2) +:+
    tpl "' y='13' fill='#fff'>" +:+
    message +:+
    tpl "</text>
  </g>
</svg>" in
  (svg, status, color, message).

End Coverage.

End CoverageBadge.

(** ** The badge renderer of the specification

    The specification describes one renderer taking a label, a message
    and a colour.  The scripts have no such function: each badge function
    carries its own copy of the template.  [render_badge] is the renderer
    as the specification words it, to be compared with the three copies. *)

Module BadgeRenderer.

Definition render_badge (label message color : string) : string :=
  let text_width := Z.of_nat (String.length message) * 6 + 20 in
    tpl "<svg xmlns='http://www.w3.org/2000/svg' width='" +:+
    str (text_width + 80) +:+
    tpl "' height='20'>
  <linearGradient id='b' x2='0' y2='100%'>
    <stop offset='0' stop-color='#bbb' stop-opacity='.1'/>
    <stop offset='1' stop-opacity='.1'/>
  </linearGradient>
  <mask id='a'>
    <rect width='100%' height='100%' rx='3' fill='#fff'/>
  </mask>
  <g mask='url(#a)'>
    <path fill='#555' d='M0 0h60v20H0z'/>
    <path fill='" +:+
    color +:+
    tpl "' d='M60 0h" +:+
    str text_width +:+
    tpl "v20H60z'/>
  </g>
  <rect width='100%' height='100%' rx='3' fill='none' stroke='rgba(0,0,0,.1)'/>
  <g fill='#fff' text-anchor='middle' font-family='DejaVu Sans,Verdana,Geneva,sans-serif' font-size='11'>
    <text x='30' y='14' fill='#010101' fill-opacity='.3'>" +:+
    label +:+
    tpl "</text>
    <text x='30' y='13' fill='#fff'>" +:+
    label +:+
    tpl "</text>
    <text x='" +:+
    str (60 + text_width / 2) +:+
    tpl "' y='14' fill='#010101' fill-opacity='.3'>" +:+
    message +:+
    tpl "</text>
    <text x='" +:+
    str (60 + text_width / 2) +:+
    tpl "' y='13' fill='#fff'>" +:+
    message +:+
    tpl "</text>
  </g>
</svg>".

(** *** Reading a rendered badge back

    The text of a badge cut at every double quote: the attribute values
    are the pieces at the odd positions. *)
Fixpoint split_quotes (s : string) : list string :=
  match s with
  | EmptyString => [EmptyString]
  | String c s' =>
    if Ascii.eqb c "034"%char then EmptyString :: split_quotes s'
    else
      match split_quotes s' with
      | [] => [String c EmptyString]
      | piece :: rest => String c piece :: rest
      end
  end.

(** Joining the pieces of two texts: the last piece of the first text runs
    on into the first piece of the second. *)
Fixpoint glue (l1 l2 : list string) : list string :=
  match l1 with
  | [] => l2
  | x :: l1' =>
    match l1' with
    | [] =>
      match l2 with
      | [] => [x]
      | y :: l2' => (x +:+ y) :: l2'
      end
    | _ :: _ => x :: glue l1' l2
    end
  end.

(** The [width] attribute of the [svg] element: the total width. *)
Definition svg_width (svg : string) : option string :=
  split_quotes svg !! 3%nat.

(** The [fill] attribute of the second [path]: the colour of the right
    segment. *)
Definition segment_fill (svg : string) : option string :=
  split_quotes svg !! 39%nat.

(** The [d] attribute of the second [path]: the outline of the right
    segment, [M60 0h<width>v20H60z]. *)
Definition segment_path (svg : string) : option string :=
  split_quotes svg !! 41%nat.

End BadgeRenderer.

(** ** Vocabulary of the specification *)

Module Aggregator.

Import SecurityReport.

(** The severity buckets, most severe first. *)
Inductive bucket : Type :=
  | Critical
  | High
  | Medium
  | Low
  | Info.

Definition severity_order : list bucket := [Critical; High; Medium; Low; Info].

(** The count that [report["summary"]] holds for a bucket. *)
Definition count (s : summary) (b : bucket) : Z :=
  match b with
  | Critical => critical_issues s
  | High => high_issues s
  | Medium => medium_issues s
  | Low => low_issues s
  | Info => info_issues s
  end.

(** The buckets whose count is not zero, most severe first. *)
Definition nonempty_buckets (s : summary) : list bucket :=
  filter (fun b => count s b <> 0) severity_order.

(** The buckets whose count is greater than zero, most severe first. *)
Definition positive_buckets (s : summary) : list bucket :=
  filter (fun b => 0 < count s b) severity_order.

(** The advisory text that the script has for a bucket; it has none for
    [Info]. *)
Definition advisory (b : bucket) : option string :=
  match b with
  | Critical => Some critical_advice
  | High => Some high_advice
  | Medium => Some medium_advice
  | Low => Some low_advice
  | Info => None
  end.

(** The tools in the order the script processes them: the key under
    [report["tools"]], the input file, and the block that handles it. *)
Definition tool_table : list (string * string * (json -> report -> result report)) :=
  [ ("checkov", "checkov-results.json", process_checkov);
    ("trivy", "trivy-results.json", process_trivy);
    ("gosec", "gosec-results.json", process_gosec);
    ("semgrep", "semgrep-results.json", process_semgrep) ].

(** What a block may change when it completes: one entry of
    [report["tools"]], the total, and the count of one bucket. *)
Record frame (name : string) (r r' : report) : Prop := Frame {
  frame_tools : exists entry, r_tools r' = <[name := entry]> (r_tools r);
  frame_recommendations : r_recommendations r' = r_recommendations r;
  frame_critical :
    critical_issues (r_summary r') = critical_issues (r_summary r);
  frame_info : info_issues (r_summary r') = info_issues (r_summary r)
}.

(** The input file is missing, or [json.load] rejects its text with
    [JSONDecodeError]: the two conditions that [load_json_file] catches. *)
Definition unreadable (fs : gmap string content) (path : string) : Prop :=
  fs !! path = None \/ fs !! path = Some Unparsable.

(** The input state of the end-to-end scenario: checkov reports
    [{failed: 2, passed: 48, skipped: 0}], gosec reports [{Issues: []}],
    and the trivy and semgrep files do not exist. *)
Definition scenario_fs : gmap string content :=
  <["checkov-results.json" :=
      Parses (JObj (<["failed" := JInt 2]>
                   (<["passed" := JInt 48]>
                   (<["skipped" := JInt 0]> ∅))))]>
  (<["gosec-results.json" := Parses (JObj (<["Issues" := JArr []]> ∅))]> ∅).

End Aggregator.

Module GradeMapper.

(** The components of the tuple that a badge function returns. *)
Definition svg_of (b : string * string * string * string) : string := b.1.1.1.
Definition status_of (b : string * string * string * string) : string := b.1.1.2.
Definition color_of (b : string * string * string * string) : string := b.1.2.
Definition message_of (b : string * string * string * string) : string := b.2.

(** The colour bands for the security score in the words of the
    specification: bright green from 95, green from 80, yellow from 70,
    orange from 60 (the grade's cut point below 70), red below 60. *)
Definition claimed_badge_color (score : Z) : string :=
  if 95 <=? score then "brightgreen"
  else if 80 <=? score then "green"
  else if 70 <=? score then "yellow"
  else if 60 <=? score then "orange"
  else "red".

End GradeMapper.

(** ** Files that the scripts write *)

Module Output.

(** What a script leaves in a file: the text of one [f.write], or the
    value handed to [json.dump]. *)
Inductive written : Type :=
  | Text (s : string)
  | Dump (v : json).

End Output.

(** ** [scripts/security-badge.py], [main] *)

Module SecurityBadgeMain.

Import SecurityReport SecurityBadge Output.

(** The dict that [main] returns. *)
Record outcome : Type := Outcome {
  o_security_score : Z;
  o_security_grade : string;
  o_issues_count : Z;
  o_security_status : string;
  o_issues_status : string
}.

(** [main].  [results] is what [load_security_results] returns: [None] when
    [docs/badges/security-results.json] is missing or does not parse, and
    otherwise the report that [security-report.py] serialised there; a key
    that the report lacks takes the default of its [.get].  [files] are the
    files on disk; the directory [docs/badges] is created when absent. *)
Definition main (results : option report) (files : gmap string written)
    : option outcome * gmap string written :=
  match results with
  | None => (None, files)
  | Some results =>
    let score := default 0 (r_security_score results) in
    let grade := default "F" (r_security_grade results) in
    let issues_count := total_issues (r_summary results) in
    let '(security_svg, security_status, security_color, security_message) :=
      create_security_badge score grade issues_count in
    let '(issues_svg, issues_status, issues_color, issues_message) :=
      create_issues_badge issues_count in
    let files := <["docs/badges/security-score.svg" := Text security_svg]> files in
    let files := <["docs/badges/security-issues.svg" := Text issues_svg]> files in
    (Some {| o_security_score := score;
             o_security_grade := grade;
             o_issues_count := issues_count;
             o_security_status := security_status;
             o_issues_status := issues_status |},
     files)
  end.

End SecurityBadgeMain.

(** ** [scripts/checkov-badge.py] *)

Module CheckovBadge.

Import SecurityReport Output.

(** The value of a number: [bool] is a subclass of [int]. *)
Definition number (v : json) : option Z :=
  match v with
  | JInt z => Some z
  | JBool b => Some (Z.b2z b)
  | _ => None
  end.

(** An exception inside [parse_checkov_results] is caught by its
    [except Exception]; which one it was is not observable, so a step that
    raises is [None]. *)
Definition caught {A : Type} (r : result A) : option A :=
  match r with
  | Ok a => Some a
  | Raise _ => None
  end.

(** [a + b]: numbers add, strings and lists concatenate, anything else
    raises [TypeError]. *)
Definition plus (a b : json) : option json :=
  match a, b with
  | JStr s, JStr t => Some (JStr (s +:+ t))
  | JArr l, JArr k => Some (JArr (l ++ k))
  | _, _ =>
    match number a, number b with
    | Some x, Some y => Some (JInt (x + y))
    | _, _ => None
    end
  end.

(** [v == 0] *)
Definition equals_zero (v : json) : bool :=
  match number v with
  | Some z => z =? 0
  | None => false
  end.

(** [message.replace(' ', '%20')] *)
Fixpoint replace_spaces (message : string) : string :=
  match message with
  | EmptyString => EmptyString
  | String c rest =>
    if Ascii.eqb c " " then "%20" +:+ replace_spaces rest
    else String c (replace_spaces rest)
  end.

Section Percent.

(** [int((passed_checks / total_checks) * 100)], for a non-zero total, is
    a parameter of the section; [None] stands for an exception.  Python's
    computation is [int_percent], after the section. *)
Variable percent : Z -> Z -> option Z.

(** [parse_checkov_results]; the result is the tuple
    [(security_score, message, color)]. *)
Definition parse_checkov_results (fs : gmap string content)
    : Z * string * string :=
  match fs !! "checkov_results.json" with
  | None => (0, "No results", "lightgrey")
  | Some file =>
    default (0, "Parse error", "lightgrey")
      (data ← match file with
              | Unparsable => None
              | Parses v => Some v
              | Fails _ => None
              end;
       summary ← caught (get data "summary" (JObj ∅));
       failed_checks ← caught (get summary "failed" (JInt 0));
       passed_checks ← caught (get summary "passed" (JInt 0));
       total_checks ← plus failed_checks passed_checks;
       if equals_zero total_checks then
         Some (100, "No checks found", "brightgreen")
       else
         passed ← number passed_checks;
         total ← number total_checks;
         security_score ← percent passed total;
         let color :=
           if 90 <=? security_score then "brightgreen"
           else if 70 <=? security_score then "yellow"
           else "red" in
         Some (security_score, str security_score +:+ "% secure", color))
  end.

(** [generate_badge]: the URL it returns and the files after its write. *)
Definition generate_badge (score : Z) (message color : string)
    (files : gmap string written) : string * gmap string written :=
  let badge_url :=
    "https://img.shields.io/badge/Checkov_Security-" +:+
    replace_spaces message +:+ "-" +:+ color +:+
    "?style=flat-square&logo=checkov" in
  (badge_url, <["docs/badges/checkov-security-badge.txt" := Text badge_url]> files).

(** [main]: [fs] is the file system as the Checkov run leaves it (the
    outcome of [run_checkov] is only printed); the result is the exit code
    and the files after the write. *)
Definition main (fs : gmap string content) (files : gmap string written)
    : Z * gmap string written :=
  let '(score, message, color) := parse_checkov_results fs in
  let '(badge_url, files) := generate_badge score message color files in
  (0, files).

End Percent.


End CheckovBadge.

(** ** [scripts/release-badge.py] *)

Module ReleaseBadge.

Import Output.

(** What the request to the release API comes to: an exception (no
    connection, time-out, error status, a body that is not JSON), or the
    parsed body. *)
Inductive reply : Type :=
  | Failed
  | Body (data : json).

(** [get_latest_release]: every exception is caught and gives "unknown". *)
Definition get_latest_release (r : reply) : json :=
  match r with
  | Failed => JStr "unknown"
  | Body data =>
    match get data "tag_name" (JStr "unknown") with
    | Ok version => version
    | Raise _ => JStr "unknown"
    end
  end.

(** [s.lstrip('v')] *)
Fixpoint lstrip_v (s : string) : string :=
  match s with
  | EmptyString => EmptyString
  | String c rest => if Ascii.eqb c "v" then lstrip_v rest else s
  end.

(** [generate_badge]: only a [str] has [lstrip]. *)
Definition generate_badge (version : json) : result (string * string) :=
  match version with
  | JStr version =>
    let clean_version := lstrip_v version in
    let badge_url :=
      "https://img.shields.io/badge/Release-v" +:+ clean_version +:+
      "-blue?style=flat-square&logo=github&logoColor=white" in
    Ok (badge_url, clean_version)
  | _ => Raise AttributeError
  end.

(** [save_badge_files], at the instant [utcnow] (in ISO format); the
    result is the two paths and the files after the writes. *)
Definition save_badge_files (badge_url : string) (version : json)
    (clean_version : string) (utcnow : string) (files : gmap string written)
    : string * string * gmap string written :=
  let badge_file := "docs/badges/release-version-badge.txt" in
  let files := <[badge_file := Text badge_url]> files in
  let version_info :=
    JObj (<["version" := version]>
         (<["clean_version" := JStr clean_version]>
         (<["badge_url" := JStr badge_url]>
         (<["last_updated" := JStr (utcnow +:+ "Z")]> ∅)))) in
  let info_file := "docs/badges/release-info.json" in
  let files := <[info_file := Dump version_info]> files in
  (badge_file, info_file, files).

(** [version == "unknown"] *)
Definition is_unknown (version : json) : bool :=
  match version with
  | JStr s => bool_decide (s = "unknown")
  | _ => false
  end.

(** [main]: the exit code and the files after the run. *)
Definition main (r : reply) (utcnow : string) (files : gmap string written)
    : result (Z * gmap string written) :=
  let version := get_latest_release r in
  if is_unknown version then mret (1, files)
  else
    '(badge_url, clean_version) ← generate_badge version;
    let '(badge_file, info_file, files) :=
      save_badge_files badge_url version clean_version utcnow files in
    mret (0, files).

End ReleaseBadge.

(** ** Further vocabulary *)

Module Layout.

Import SecurityReport.

(** The report with another creation instant. *)
Definition set_timestamp (now : string) (r : report) : report :=
  {| r_timestamp := now;
     r_summary := r_summary r;
     r_tools := r_tools r;
     r_recommendations := r_recommendations r;
     r_security_score := r_security_score r;
     r_security_grade := r_security_grade r |}.

(** The [x] attribute of the first [text] element that shows the message:
    the horizontal centre of the message. *)
Definition message_x (svg : string) : option string :=
  BadgeRenderer.split_quotes svg !! 75%nat.

(** The text no longer holds the character. *)
Fixpoint free_of (c : ascii) (s : string) : bool :=
  match s with
  | EmptyString => true
  | String a rest => negb (Ascii.eqb a c) && free_of c rest
  end.

(** [n] times the letter v. *)
Fixpoint vs (n : nat) : string :=
  match n with
  | O => EmptyString
  | S n => String "v" (vs n)
  end.

(** The total of a summary is the sum of its buckets. *)
Definition balanced (s : summary) : Prop :=
  total_issues s =
    critical_issues s + high_issues s + medium_issues s + low_issues s
    + info_issues s.

(** The shape of an entry of [report["tools"]]: a dict whose status is
    "failed" with 0 issues found, or "completed" with some
    [issues_found]. *)
Definition tool_entry_shape (entry : json) : Prop :=
  exists m, entry = JObj m /\
    ((m !! "status" = Some (JStr "failed") /\
      m !! "issues_found" = Some (JInt 0)) \/
     (m !! "status" = Some (JStr "completed") /\
      is_Some (m !! "issues_found"))).

(** The tools whose issue count is the length of a field: the field, the
    input file, and the block that handles it. *)
Definition length_tools : list (string * string * (json -> report -> result report)) :=
  [ ("Results", "trivy-results.json", process_trivy);
    ("Issues", "gosec-results.json", process_gosec);
    ("results", "semgrep-results.json", process_semgrep) ].

End Layout.

Import SecurityReport SecurityBadge CoverageBadge BadgeRenderer.
Import Aggregator GradeMapper.

(** * Properties *)

(** ** The result monad *)

Lemma bind_Ok_inv {A B : Type} (m : result A) (f : A -> result B) (b : B) :
  m ≫= f = Ok b -> exists a, m = Ok a /\ f a = Ok b.
Proof.
  destruct m as [a|e]; simpl; intros H.
  - exists a. split; [reflexivity | exact H].
  - discriminate H.
Qed.

Lemma bind_Raise_inv {A B : Type} (m : result A) (f : A -> result B) (e : exn) :
  m ≫= f = Raise e -> m = Raise e \/ exists a, m = Ok a /\ f a = Raise e.
Proof.
  destruct m as [a|e']; simpl; intros H.
  - right. exists a. split; [reflexivity | exact H].
  - left. injection H as ->. reflexivity.
Qed.

(** ** Score and grade *)

Section Score.

Ltac bands := unfold security_score, get_security_grade;
  repeat case_match; try reflexivity; lia.

(** C1: the security score is a step function of [total_issues] alone:
    0 gives 100, 1 to 2 gives 95, 3 to 5 gives 85, 6 to 10 gives 70 and
    anything above 10 gives 50; the score stored in a generated report is
    this function of the report's [total_issues].  In particular 2 gives
    95, 3 gives 85 and 11 gives 50. *)
Theorem security_score_bands :
  (forall n, n = 0 -> security_score n = 100) /\
  (forall n, 1 <= n <= 2 -> security_score n = 95) /\
  (forall n, 3 <= n <= 5 -> security_score n = 85) /\
  (forall n, 6 <= n <= 10 -> security_score n = 70) /\
  (forall n, 10 < n -> security_score n = 50) /\
  (forall fs now rep, generate_security_report fs now = Ok rep ->
     r_security_score rep =
       Some (security_score (total_issues (r_summary rep)))) /\
  security_score 2 = 95 /\ security_score 3 = 85 /\ security_score 11 = 50.
Proof.
  repeat split; try (intros n Hn; bands).
  intros fs now rep H. unfold generate_security_report in H.
  repeat (apply bind_Ok_inv in H; destruct H as [? [_ H]]).
  injection H as <-. reflexivity.
Qed.

Lemma security_score_bands_witness :
  security_score 0 = 100 /\ security_score 1 = 95 /\ security_score 4 = 85 /\
  security_score 10 = 70 /\ security_score 25 = 50 /\
  exists rep, generate_security_report scenario_fs "2024-05-01T12:00:00" = Ok rep /\
    r_security_score rep = Some (security_score (total_issues (r_summary rep))).
Proof.
  destruct security_score_bands as (H0 & H1 & H2 & H3 & H4 & Hrep & _).
  split; [apply H0; reflexivity|].
  split; [apply H1; lia|].
  split; [apply H2; lia|].
  split; [apply H3; lia|].
  split; [apply H4; lia|].
  eexists. split; [vm_compute; reflexivity|].
  apply (Hrep scenario_fs "2024-05-01T12:00:00"). vm_compute. reflexivity.
Defined.

(** C2: the score never increases when the number of issues grows: for
    issue counts [n1 <= n2], the score of [n1] is at least the score of
    [n2]. *)
Theorem security_score_monotone (n1 n2 : Z) :
  0 <= n1 -> n1 <= n2 -> security_score n2 <= security_score n1.
Proof.
  intros H0 H. unfold security_score. repeat case_match; lia.
Qed.

Lemma security_score_monotone_witness :
  security_score 7 <= security_score 2.
Proof.
  apply (security_score_monotone 2 7); lia.
Defined.

(** C3: the grade follows the score bands: from 95 "A+", from 90 "A",
    from 80 "B", from 70 "C", from 60 "D", below that "F"; a generated
    report with no issue has score 100 and grade "A+". *)
Theorem get_security_grade_bands :
  (forall score, 95 <= score -> get_security_grade score = "A+") /\
  (forall score, 90 <= score < 95 -> get_security_grade score = "A") /\
  (forall score, 80 <= score < 90 -> get_security_grade score = "B") /\
  (forall score, 70 <= score < 80 -> get_security_grade score = "C") /\
  (forall score, 60 <= score < 70 -> get_security_grade score = "D") /\
  (forall score, score < 60 -> get_security_grade score = "F") /\
  (forall fs now rep, generate_security_report fs now = Ok rep ->
     total_issues (r_summary rep) = 0 ->
     r_security_score rep = Some 100 /\ r_security_grade rep = Some "A+").
Proof.
  repeat split; try (intros n Hn; bands).
  - unfold generate_security_report in H.
    repeat (apply bind_Ok_inv in H; destruct H as [? [_ H]]).
    injection H as <-. simpl in *. rewrite H0. reflexivity.
  - unfold generate_security_report in H.
    repeat (apply bind_Ok_inv in H; destruct H as [? [_ H]]).
    injection H as <-. simpl in *. rewrite H0. reflexivity.
Qed.

Lemma get_security_grade_bands_witness :
  get_security_grade 100 = "A+" /\ get_security_grade 92 = "A" /\
  get_security_grade 85 = "B" /\ get_security_grade 70 = "C" /\
  get_security_grade 61 = "D" /\ get_security_grade 50 = "F" /\
  exists rep, generate_security_report ∅ "2024-05-01T12:00:00" = Ok rep /\
    r_security_score rep = Some 100 /\ r_security_grade rep = Some "A+".
Proof.
  destruct get_security_grade_bands as (H0 & H1 & H2 & H3 & H4 & H5 & Hrep).
  split; [apply H0; lia|].
  split; [apply H1; lia|].
  split; [apply H2; lia|].
  split; [apply H3; lia|].
  split; [apply H4; lia|].
  split; [apply H5; lia|].
  eexists. split; [vm_compute; reflexivity|].
  apply (Hrep ∅ "2024-05-01T12:00:00"); vm_compute; reflexivity.
Defined.

End Score.

(** ** The four processing blocks *)

Section Blocks.

Ltac run_block H :=
  repeat match type of H with
  | (if ?c then _ else _) = _ => destruct c
  | _ ≫= _ = Ok _ =>
      let H1 := fresh "Hstep" in
      apply bind_Ok_inv in H; destruct H as (? & H1 & H)
  | mret _ = Ok _ => injection H as <-
  | Ok _ = Ok _ => injection H as <-
  end.

Lemma process_checkov_frame v r r' :
  process_checkov v r = Ok r' -> frame "checkov" r r'.
Proof.
  unfold process_checkov. intros H. run_block H;
    (split; [eexists; reflexivity | reflexivity ..]).
Qed.

Lemma process_trivy_frame v r r' :
  process_trivy v r = Ok r' -> frame "trivy" r r'.
Proof.
  unfold process_trivy. intros H. run_block H;
    (split; [eexists; reflexivity | reflexivity ..]).
Qed.

Lemma process_gosec_frame v r r' :
  process_gosec v r = Ok r' -> frame "gosec" r r'.
Proof.
  unfold process_gosec. intros H. run_block H;
    (split; [eexists; reflexivity | reflexivity ..]).
Qed.

Lemma process_semgrep_frame v r r' :
  process_semgrep v r = Ok r' -> frame "semgrep" r r'.
Proof.
  unfold process_semgrep. intros H. run_block H;
    (split; [eexists; reflexivity | reflexivity ..]).
Qed.

(** A run that returns a report loaded the four files and went through the
    four blocks in order. *)
Lemma generate_security_report_Ok_inv fs now rep :
  generate_security_report fs now = Ok rep ->
  exists v1 v2 v3 v4 r1 r2 r3 r4,
    load_json_file fs "checkov-results.json" = Ok v1 /\
    load_json_file fs "trivy-results.json" = Ok v2 /\
    load_json_file fs "gosec-results.json" = Ok v3 /\
    load_json_file fs "semgrep-results.json" = Ok v4 /\
    process_checkov v1 (initial_report now) = Ok r1 /\
    process_trivy v2 r1 = Ok r2 /\
    process_gosec v3 r2 = Ok r3 /\
    process_semgrep v4 r3 = Ok r4 /\
    rep = finish r4.
Proof.
  unfold generate_security_report. intros H.
  apply bind_Ok_inv in H as (v1 & L1 & H).
  apply bind_Ok_inv in H as (v2 & L2 & H).
  apply bind_Ok_inv in H as (v3 & L3 & H).
  apply bind_Ok_inv in H as (v4 & L4 & H).
  apply bind_Ok_inv in H as (r1 & H1 & H).
  apply bind_Ok_inv in H as (r2 & H2 & H).
  apply bind_Ok_inv in H as (r3 & H3 & H).
  apply bind_Ok_inv in H as (r4 & H4 & H).
  injection H as <-. eauto 20.
Qed.

(** A run that raises does so while it loads a file or in one of the four
    blocks. *)
Lemma generate_security_report_Raise_inv fs now e :
  generate_security_report fs now = Raise e ->
  exists name path process,
    In (name, path, process) tool_table /\
    (load_json_file fs path = Raise e \/
     exists v r, load_json_file fs path = Ok v /\ process v r = Raise e).
Proof.
  unfold generate_security_report, tool_table. intros H.
  apply bind_Raise_inv in H as [H | (v1 & L1 & H)];
    [do 3 eexists; split; [|left; exact H]; simpl; tauto|].
  apply bind_Raise_inv in H as [H | (v2 & L2 & H)];
    [do 3 eexists; split; [|left; exact H]; simpl; tauto|].
  apply bind_Raise_inv in H as [H | (v3 & L3 & H)];
    [do 3 eexists; split; [|left; exact H]; simpl; tauto|].
  apply bind_Raise_inv in H as [H | (v4 & L4 & H)];
    [do 3 eexists; split; [|left; exact H]; simpl; tauto|].
  apply bind_Raise_inv in H as [H | (r1 & _ & H)];
    [do 3 eexists; split; [|right; eauto]; simpl; tauto|].
  apply bind_Raise_inv in H as [H | (r2 & _ & H)];
    [do 3 eexists; split; [|right; eauto]; simpl; tauto|].
  apply bind_Raise_inv in H as [H | (r3 & _ & H)];
    [do 3 eexists; split; [|right; eauto]; simpl; tauto|].
  apply bind_Raise_inv in H as [H | (r4 & _ & H)];
    [do 3 eexists; split; [|right; eauto]; simpl; tauto|].
  discriminate H.
Qed.

(** A file that is missing or that [json.load] rejects loads as [None]. *)
Lemma load_json_file_unreadable fs path :
  unreadable fs path -> load_json_file fs path = Ok JNull.
Proof.
  unfold load_json_file. intros [-> | ->]; reflexivity.
Qed.

(** A file that parses loads as its value. *)
Lemma load_json_file_Parses fs path v :
  fs !! path = Some (Parses v) -> load_json_file fs path = Ok v.
Proof.
  unfold load_json_file. intros ->. reflexivity.
Qed.

(** A file on which [open] or [json.load] raises another exception makes
    [load_json_file] raise it. *)
Lemma load_json_file_Fails fs path e :
  fs !! path = Some (Fails e) -> load_json_file fs path = Raise e.
Proof.
  unfold load_json_file. intros ->. reflexivity.
Qed.

(** A load that raises does so on such a file. *)
Lemma load_json_file_Raise_inv fs path e :
  load_json_file fs path = Raise e -> fs !! path = Some (Fails e).
Proof.
  unfold load_json_file.
  destruct (fs !! path) as [[|v|e']|]; try discriminate.
  intros [= ->]. reflexivity.
Qed.

(** On [None] every block records the tool as failed and stops there. *)
Lemma tool_table_on_None name path process r :
  In (name, path, process) tool_table ->
  process JNull r = Ok (set_tool name failed_entry r).
Proof.
  intros [H|[H|[H|[H|[]]]]]; injection H as <- <- <-; reflexivity.
Qed.

(** On a truthy value that is not a dict every block raises at its first
    [.get]. *)
Lemma tool_table_on_non_dict name path process v r :
  In (name, path, process) tool_table ->
  truthy v = true -> is_object v = false ->
  process v r = Raise AttributeError.
Proof.
  intros [H|[H|[H|[H|[]]]]] Ht Ho; injection H as <- <- <-;
    unfold process_checkov, process_trivy, process_gosec, process_semgrep;
    rewrite Ht; destruct v; try discriminate Ho; reflexivity.
Qed.

(** A run in which the load of one file raises, or the block of one tool
    raises whatever the report, returns no report. *)
Lemma tool_table_Raise_run name path process fs now :
  In (name, path, process) tool_table ->
  (exists e0, load_json_file fs path = Raise e0) \/
  (exists v e0, load_json_file fs path = Ok v /\
     forall r, process v r = Raise e0) ->
  exists e, generate_security_report fs now = Raise e.
Proof.
  intros Hin Hr.
  destruct (generate_security_report fs now) as [rep|e] eqn:Hrun; [|eauto].
  exfalso.
  apply generate_security_report_Ok_inv in Hrun
    as (v1 & v2 & v3 & v4 & r1 & r2 & r3 & r4
        & L1 & L2 & L3 & L4 & H1 & H2 & H3 & H4 & _).
  destruct Hin as [H|[H|[H|[H|[]]]]]; injection H as <- <- <-;
    (destruct Hr as [[e0 Hl] | (v & e0 & Hl & Hp)]; [congruence|]);
    match goal with
    | L : load_json_file fs ?p = Ok ?w, Hl : load_json_file fs ?p = Ok v |- _ =>
      rewrite Hl in L; injection L as <-
    end;
    match goal with
    | Hx : _ v _ = Ok _ |- _ => rewrite Hp in Hx; discriminate Hx
    end.
Qed.

End Blocks.

(** ** Generated reports *)

Section Reports.

(** The end-to-end scenario, evaluated. *)
Lemma scenario_run now :
  exists rep,
    generate_security_report scenario_fs now = Ok rep /\
    r_summary rep = Summary 2 0 0 2 0 0 /\
    r_recommendations rep = [medium_advice] /\
    r_security_score rep = Some 95 /\
    r_security_grade rep = Some "A+".
Proof.
  eexists. split; [vm_compute; reflexivity|].
  repeat split.
Qed.

(** C4, as the specification states it: the scenario would end with grade
    "A" and with the advisory text without its leading symbol.  The run
    ends with grade "A+" and the advisory text as the script has it. *)
Lemma scenario_grade_counterexample :
  ~ exists rep,
      generate_security_report scenario_fs "2024-05-01T12:00:00" = Ok rep /\
      total_issues (r_summary rep) = 2 /\
      r_security_score rep = Some 95 /\
      r_security_grade rep = Some "A" /\
      r_recommendations rep =
        ["Medium priority issues found - address within 1 week"].
Proof.
  intros (rep & Hrun & _ & _ & Hgrade & _).
  destruct (scenario_run "2024-05-01T12:00:00") as (rep' & Hrun' & _ & _ & _ & Hg).
  rewrite Hrun in Hrun'. injection Hrun' as <-.
  rewrite Hgrade in Hg. discriminate Hg.
Qed.

(** C4, amended: in the scenario (checkov reports 2 failed, 48 passed and 0
    skipped checks, gosec reports no issue, the trivy and semgrep files are
    absent) the report has [total_issues = 2], score 95, grade "A+", and the
    single recommendation
    "📋 Medium priority issues found - address within 1 week". *)
Theorem scenario_report now :
  exists rep,
    generate_security_report scenario_fs now = Ok rep /\
    total_issues (r_summary rep) = 2 /\
    r_security_score rep = Some 95 /\
    r_security_grade rep = Some "A+" /\
    r_recommendations rep =
      ["📋 Medium priority issues found - address within 1 week"].
Proof.
  destruct (scenario_run now) as (rep & Hrun & Hs & Hr & Hsc & Hg).
  exists rep. rewrite Hs, Hr. repeat split; assumption.
Qed.

(** In the scenario both tools without a file are recorded as failed, and
    both tools with a file as completed. *)
Lemma scenario_tools now rep :
  generate_security_report scenario_fs now = Ok rep ->
  r_tools rep !! "trivy" = Some failed_entry /\
  r_tools rep !! "semgrep" = Some failed_entry /\
  r_tools rep !! "checkov" =
    Some (JObj (<["status" := JStr "completed"]>
               (<["issues_found" := JInt 2]>
               (<["passed" := JInt 48]>
               (<["skipped" := JInt 0]> ∅))))) /\
  r_tools rep !! "gosec" =
    Some (JObj (<["status" := JStr "completed"]>
               (<["issues_found" := JInt 0]>
               (<["issues" := JArr []]> ∅)))).
Proof.
  intros H. vm_compute in H. injection H as <-.
  repeat split; vm_compute; reflexivity.
Qed.

End Reports.

(** ** Tools without a usable input *)

Section FailedTools.

(** A tool entry survives the blocks of the other tools. *)
Lemma frame_lookup name name' r r' entry :
  frame name' r r' -> name <> name' ->
  r_tools r !! name = Some entry -> r_tools r' !! name = Some entry.
Proof.
  intros [[e He] _ _ _] Hne Hl. rewrite He.
  rewrite lookup_insert_ne by congruence. exact Hl.
Qed.

Lemma set_tool_lookup name entry r :
  r_tools (set_tool name entry r) !! name = Some entry.
Proof. simpl. apply lookup_insert_eq. Qed.

(** In a run that returns a report, a tool whose file is missing or
    rejected by [json.load] is recorded as failed in that report. *)
Lemma unreadable_tool_entry name path process fs now rep :
  In (name, path, process) tool_table ->
  unreadable fs path ->
  generate_security_report fs now = Ok rep ->
  r_tools rep !! name = Some failed_entry.
Proof.
  intros Hin Hu Hrun.
  apply load_json_file_unreadable in Hu.
  apply generate_security_report_Ok_inv in Hrun
    as (v1 & v2 & v3 & v4 & r1 & r2 & r3 & r4
        & L1 & L2 & L3 & L4 & H1 & H2 & H3 & H4 & ->).
  simpl r_tools.
  pose proof (process_checkov_frame _ _ _ H1) as F1.
  pose proof (process_trivy_frame _ _ _ H2) as F2.
  pose proof (process_gosec_frame _ _ _ H3) as F3.
  pose proof (process_semgrep_frame _ _ _ H4) as F4.
  destruct Hin as [H|[H|[H|[H|[]]]]]; injection H as <- <- <-.
  - rewrite Hu in L1. injection L1 as <-. injection H1 as <-.
    eapply frame_lookup; [exact F4|discriminate|].
    eapply frame_lookup; [exact F3|discriminate|].
    eapply frame_lookup; [exact F2|discriminate|].
    apply set_tool_lookup.
  - rewrite Hu in L2. injection L2 as <-. injection H2 as <-.
    eapply frame_lookup; [exact F4|discriminate|].
    eapply frame_lookup; [exact F3|discriminate|].
    apply set_tool_lookup.
  - rewrite Hu in L3. injection L3 as <-. injection H3 as <-.
    eapply frame_lookup; [exact F4|discriminate|].
    apply set_tool_lookup.
  - rewrite Hu in L4. injection L4 as <-. injection H4 as <-.
    apply set_tool_lookup.
Qed.

(** What [load_json_file] catches.  For every tool whose input file is
    missing or holds text that [json.load] rejects with [JSONDecodeError],
    the load returns [None], the tool's block records status "failed" with
    0 issues and leaves the summary as it was, and a report that the run
    returns carries that entry. *)
Lemma unreadable_tool_is_failed name path process fs :
  In (name, path, process) tool_table ->
  unreadable fs path ->
  load_json_file fs path = Ok JNull /\
  (forall r, exists r',
     process JNull r = Ok r' /\
     r_tools r' !! name =
       Some (JObj (<["status" := JStr "failed"]>
                  (<["issues_found" := JInt 0]> ∅))) /\
     r_summary r' = r_summary r) /\
  (forall now rep, generate_security_report fs now = Ok rep ->
     r_tools rep !! name =
       Some (JObj (<["status" := JStr "failed"]>
                  (<["issues_found" := JInt 0]> ∅)))).
Proof.
  intros Hin Hu. split; [exact (load_json_file_unreadable _ _ Hu)|]. split.
  - intros r. exists (set_tool name failed_entry r).
    split; [exact (tool_table_on_None _ _ _ r Hin)|].
    split; [apply set_tool_lookup | reflexivity].
  - intros now rep Hrun.
    exact (unreadable_tool_entry _ _ _ _ _ _ Hin Hu Hrun).
Qed.

(** With no input file at all, or none that [json.load] accepts, the run
    returns a report without issues. *)
Lemma all_unreadable_run fs now :
  (forall name path process,
     In (name, path, process) tool_table -> unreadable fs path) ->
  exists rep, generate_security_report fs now = Ok rep /\
    r_summary rep = Summary 0 0 0 0 0 0 /\ r_recommendations rep = [].
Proof.
  intros H. unfold generate_security_report.
  rewrite !load_json_file_unreadable
    by (eapply H; simpl; eauto 6).
  eexists. split; [reflexivity|]. split; reflexivity.
Qed.

(** The first file, in the order of the loads, on which [open] or
    [json.load] raises an exception that is not caught. *)
Lemma first_load_failure fs :
  (exists path e,
     In path ["checkov-results.json"; "trivy-results.json";
              "gosec-results.json"; "semgrep-results.json"] /\
     fs !! path = Some (Fails e) /\
     forall now, generate_security_report fs now = Raise e) \/
  (forall path,
     In path ["checkov-results.json"; "trivy-results.json";
              "gosec-results.json"; "semgrep-results.json"] ->
     exists v, load_json_file fs path = Ok v).
Proof.
  unfold generate_security_report.
  destruct (load_json_file fs "checkov-results.json") as [v1|e1] eqn:L1;
    [|left; exists "checkov-results.json", e1;
      split; [simpl; tauto|];
      split; [exact (load_json_file_Raise_inv _ _ _ L1) | reflexivity]].
  destruct (load_json_file fs "trivy-results.json") as [v2|e2] eqn:L2;
    [|left; exists "trivy-results.json", e2;
      split; [simpl; tauto|];
      split; [exact (load_json_file_Raise_inv _ _ _ L2) | reflexivity]].
  destruct (load_json_file fs "gosec-results.json") as [v3|e3] eqn:L3;
    [|left; exists "gosec-results.json", e3;
      split; [simpl; tauto|];
      split; [exact (load_json_file_Raise_inv _ _ _ L3) | reflexivity]].
  destruct (load_json_file fs "semgrep-results.json") as [v4|e4] eqn:L4;
    [|left; exists "semgrep-results.json", e4;
      split; [simpl; tauto|];
      split; [exact (load_json_file_Raise_inv _ _ _ L4) | reflexivity]].
  right. intros path [<-|[<-|[<-|[<-|[]]]]]; eauto.
Qed.

(** C5, at the inputs where the pipeline departs from it: for every tool
    whose input file makes [open] or [json.load] end with an exception
    other than [FileNotFoundError] and [JSONDecodeError] (bytes that are not
    text, nesting that is too deep, an integer literal that is too long, a
    file that may not be read), [load_json_file] lets the exception through:
    the run ends with the exception of the first such file, whatever the
    other files hold, no report is returned, and the tool is not recorded as
    failed. *)
Theorem load_failure_ends_the_run name path process fs e :
  In (name, path, process) tool_table ->
  fs !! path = Some (Fails e) ->
  load_json_file fs path = Raise e /\
  (exists path' e',
     fs !! path' = Some (Fails e') /\
     forall now, generate_security_report fs now = Raise e') /\
  (forall now rep, generate_security_report fs now <> Ok rep).
Proof.
  intros Hin Hfs.
  pose proof (load_json_file_Fails _ _ _ Hfs) as Hl.
  split; [exact Hl|].
  assert (Hp : In path ["checkov-results.json"; "trivy-results.json";
                        "gosec-results.json"; "semgrep-results.json"]).
  { destruct Hin as [H|[H|[H|[H|[]]]]]; injection H as <- <- <-;
      simpl; tauto. }
  destruct (first_load_failure fs) as [(path' & e' & _ & Hf & Hrun) | Hall].
  - split; [exists path', e'; split; assumption|].
    intros now rep Hok. rewrite Hrun in Hok. discriminate Hok.
  - destruct (Hall _ Hp) as [v Hv]. rewrite Hl in Hv. discriminate Hv.
Qed.

Lemma load_failure_ends_the_run_witness :
  generate_security_report
    (<["trivy-results.json" := Fails UnicodeDecodeError]> scenario_fs)
    "2024-05-01T12:00:00" = Raise UnicodeDecodeError /\
  generate_security_report
    (<["trivy-results.json" := Fails UnicodeDecodeError]> scenario_fs)
    "2024-05-01T12:00:00" <> Ok (initial_report "2024-05-01T12:00:00").
Proof.
  split; [vm_compute; reflexivity|].
  refine (proj2 (proj2 (load_failure_ends_the_run "trivy" "trivy-results.json"
            process_trivy
            (<["trivy-results.json" := Fails UnicodeDecodeError]> scenario_fs)
            UnicodeDecodeError _ _)) _ _).
  - simpl. tauto.
  - vm_compute. reflexivity.
Defined.

(** C10: for every tool whose input file parses to a truthy value that is
    not an object, the load returns that value, the tool's block raises
    [AttributeError] at [.get], and the run raises instead of returning a
    report: the tool is not recorded as failed. *)
Theorem truthy_non_object_raises name path process fs v :
  In (name, path, process) tool_table ->
  fs !! path = Some (Parses v) ->
  truthy v = true -> is_object v = false ->
  load_json_file fs path = Ok v /\
  (forall r, process v r = Raise AttributeError) /\
  (forall now, exists e, generate_security_report fs now = Raise e) /\
  (forall now rep, generate_security_report fs now <> Ok rep).
Proof.
  intros Hin Hfs Ht Ho.
  pose proof (load_json_file_Parses _ _ _ Hfs) as Hl.
  assert (Hblock : forall r, process v r = Raise AttributeError).
  { intros r. exact (tool_table_on_non_dict _ _ _ _ r Hin Ht Ho). }
  assert (Hrun : forall now, exists e, generate_security_report fs now = Raise e).
  { intros now. apply (tool_table_Raise_run _ _ _ fs now Hin).
    right. exists v, AttributeError. split; assumption. }
  split; [exact Hl|].
  split; [exact Hblock|].
  split; [exact Hrun|].
  intros now rep Hok.
  destruct (Hrun now) as [e He].
  rewrite Hok in He. discriminate He.
Qed.

Lemma truthy_non_object_raises_witness :
  generate_security_report
    (<["gosec-results.json" := Parses (JArr [JStr "G101"])]> scenario_fs)
    "2024-05-01T12:00:00" <> Ok (initial_report "2024-05-01T12:00:00").
Proof.
  refine (proj2 (proj2 (proj2 (truthy_non_object_raises "gosec" "gosec-results.json"
            process_gosec
            (<["gosec-results.json" := Parses (JArr [JStr "G101"])]> scenario_fs)
            (JArr [JStr "G101"]) _ _ _ _))) _ _).
  - simpl. tauto.
  - vm_compute. reflexivity.
  - reflexivity.
  - reflexivity.
Defined.

End FailedTools.

(** ** Recommendations *)

Section Recommendations.

(** The recommendations of a generated report are those of its summary,
    and neither the critical nor the info bucket ever receives an issue. *)
Lemma generated_report_invariant fs now rep :
  generate_security_report fs now = Ok rep ->
  r_recommendations rep = generate_recommendations (r_summary rep) /\
  critical_issues (r_summary rep) = 0 /\
  info_issues (r_summary rep) = 0.
Proof.
  intros Hrun.
  apply generate_security_report_Ok_inv in Hrun
    as (v1 & v2 & v3 & v4 & r1 & r2 & r3 & r4
        & _ & _ & _ & _ & H1 & H2 & H3 & H4 & ->).
  destruct (process_checkov_frame _ _ _ H1) as [_ R1 C1 I1].
  destruct (process_trivy_frame _ _ _ H2) as [_ R2 C2 I2].
  destruct (process_gosec_frame _ _ _ H3) as [_ R3 C3 I3].
  destruct (process_semgrep_frame _ _ _ H4) as [_ R4 C4 I4].
  simpl. rewrite R4, R3, R2, R1, C4, C3, C2, C1, I4, I3, I2, I1.
  repeat split.
Qed.

(** The four tests of the block, as a selection from the severity order: the
    advisory texts of the buckets whose count is greater than zero. *)
Lemma generate_recommendations_positive_buckets s :
  generate_recommendations s = omap advisory (positive_buckets s).
Proof.
  unfold generate_recommendations, positive_buckets, severity_order.
  rewrite !filter_cons, filter_nil. simpl count.
  repeat case_decide; repeat case_match; try lia; reflexivity.
Qed.

(** When no count is negative, the buckets with a count greater than zero
    are those with a non-zero count. *)
Lemma positive_buckets_nonempty_buckets s :
  (forall b, 0 <= count s b) -> positive_buckets s = nonempty_buckets s.
Proof.
  intros Hpos.
  pose proof (Hpos Critical) as Hc. pose proof (Hpos High) as Hh.
  pose proof (Hpos Medium) as Hm. pose proof (Hpos Low) as Hl.
  pose proof (Hpos Info) as Hi.
  unfold positive_buckets, nonempty_buckets, severity_order.
  simpl in Hc, Hh, Hm, Hl, Hi.
  rewrite !filter_cons, !filter_nil. simpl count.
  repeat case_decide; try lia; reflexivity.
Qed.

(** The advisory texts of the buckets that hold issues, when no count is
    negative and the info bucket is empty. *)
Lemma generate_recommendations_nonempty_buckets s :
  (forall b, 0 <= count s b) -> info_issues s = 0 ->
  generate_recommendations s = omap advisory (nonempty_buckets s).
Proof.
  intros Hpos _.
  rewrite generate_recommendations_positive_buckets.
  rewrite (positive_buckets_nonempty_buckets _ Hpos). reflexivity.
Qed.

(** C6, as the specification states it: the recommendations would be one
    fixed text for each bucket whose count is not zero, from critical down
    to info.  A checkov file with [failed = -1] leaves the medium count at
    -1, which is not zero, and the list empty; and in a report state whose
    info count is 1 the block appends nothing, the script having no text
    for that bucket. *)
Lemma recommendations_nonzero_counterexample :
  (exists rep,
     generate_security_report
       (<["checkov-results.json" :=
            Parses (JObj (<["failed" := JInt (-1)]> ∅))]> ∅)
       "2024-05-01T12:00:00" = Ok rep /\
     nonempty_buckets (r_summary rep) = [Medium] /\
     r_recommendations rep = [] /\
     ~ exists text : bucket -> string,
         r_recommendations rep = map text (nonempty_buckets (r_summary rep))) /\
  (let r := set_summary (Summary 1 0 0 0 0 1)
              (initial_report "2024-05-01T12:00:00") in
   nonempty_buckets (r_summary r) = [Info] /\
   r_recommendations (finish r) = [] /\
   ~ exists text : bucket -> string,
       r_recommendations (finish r) = map text (nonempty_buckets (r_summary r))).
Proof.
  split.
  - eexists. split; [vm_compute; reflexivity|].
    split; [vm_compute; reflexivity|].
    split; [reflexivity|].
    intros [text H]. vm_compute in H. discriminate H.
  - cbv zeta. split; [vm_compute; reflexivity|].
    split; [reflexivity|].
    intros [text H]. vm_compute in H. discriminate H.
Qed.

(** C6, amended: in every report state the block under
    [# Generate recommendations] appends exactly one fixed advisory text for
    each of the buckets critical, high, medium and low whose count is
    greater than zero, in severity order from critical down to low; a bucket
    whose count is zero or negative contributes nothing, and the info bucket
    has no text.  The recommendations of a generated report are these texts
    for its summary, whose critical and info counts are 0; when no count is
    negative, "greater than zero" is "not zero"; and no two buckets share a
    text. *)
Theorem recommendations_follow_positive_buckets :
  (forall s, generate_recommendations s = omap advisory (positive_buckets s)) /\
  (forall r,
     r_recommendations (finish r) =
       (r_recommendations r ++ omap advisory (positive_buckets (r_summary r)))%list) /\
  (forall s, info_issues s <= 0 ->
     Forall (fun b => is_Some (advisory b)) (positive_buckets s) /\
     List.length (generate_recommendations s) =
       List.length (positive_buckets s)) /\
  (forall fs now rep, generate_security_report fs now = Ok rep ->
     r_recommendations rep =
       omap advisory (positive_buckets (r_summary rep)) /\
     count (r_summary rep) Critical = 0 /\
     count (r_summary rep) Info = 0) /\
  (forall s, (forall b, 0 <= count s b) ->
     positive_buckets s = nonempty_buckets s) /\
  (forall b b' text,
     advisory b = Some text -> advisory b' = Some text -> b = b').
Proof.
  split; [exact generate_recommendations_positive_buckets|].
  split.
  { intros r. simpl.
    rewrite generate_recommendations_positive_buckets. reflexivity. }
  split.
  { intros s Hi.
    assert (Hsome : Forall (fun b => is_Some (advisory b)) (positive_buckets s)).
    { apply Forall_forall. intros b Hb.
      apply list_elem_of_filter in Hb as [Hb _].
      destruct b; simpl; try (eexists; reflexivity).
      simpl in Hb. lia. }
    split; [exact Hsome|].
    rewrite generate_recommendations_positive_buckets.
    induction Hsome as [|b l [t Ht] _ IH]; [reflexivity|].
    simpl. rewrite Ht. simpl. f_equal. exact IH. }
  split.
  { intros fs now rep Hrun.
    destruct (generated_report_invariant _ _ _ Hrun) as (Hrec & Hc & Hi).
    rewrite Hrec, generate_recommendations_positive_buckets.
    repeat split; assumption. }
  split; [exact positive_buckets_nonempty_buckets|].
  intros b b' text Hb Hb'. rewrite <- Hb' in Hb. clear Hb'.
  destruct b, b'; try reflexivity; vm_compute in Hb; discriminate Hb.
Qed.

Lemma recommendations_follow_positive_buckets_witness :
  generate_recommendations (Summary 6 1 2 0 3 0) =
    [critical_advice; high_advice; low_advice] /\
  List.length (generate_recommendations (Summary 6 1 2 0 3 0)) =
    List.length (positive_buckets (Summary 6 1 2 0 3 0)) /\
  exists rep,
    generate_security_report
      (<["trivy-results.json" :=
           Parses (JObj (<["Results" := JArr [JStr "CVE-1"]]> ∅))]>
      (<["semgrep-results.json" :=
           Parses (JObj (<["results" := JArr [JNull; JNull]]> ∅))]> scenario_fs))
      "2024-05-01T12:00:00" = Ok rep /\
    positive_buckets (r_summary rep) = [High; Medium; Low] /\
    r_recommendations rep = omap advisory (positive_buckets (r_summary rep)).
Proof.
  destruct recommendations_follow_positive_buckets
    as (Hblock & _ & Hlen & Hrun & _ & _).
  split; [rewrite Hblock; vm_compute; reflexivity|].
  split; [apply (Hlen (Summary 6 1 2 0 3 0)); simpl; lia|].
  eexists. split; [vm_compute; reflexivity|].
  split; [vm_compute; reflexivity|].
  refine (proj1 (Hrun
    (<["trivy-results.json" :=
         Parses (JObj (<["Results" := JArr [JStr "CVE-1"]]> ∅))]>
    (<["semgrep-results.json" :=
         Parses (JObj (<["results" := JArr [JNull; JNull]]> ∅))]> scenario_fs))
    "2024-05-01T12:00:00" _ _)).
  vm_compute. reflexivity.
Defined.

End Recommendations.

(** ** Badges *)

Section BadgeText.

Ltac by_bands :=
  repeat match goal with
  | |- context [if ?c then _ else _] => destruct c
  end; reflexivity.

Lemma append_empty_r s : s +:+ "" = s.
Proof.
  induction s as [|c s IH]; [reflexivity|].
  change (String c s +:+ "") with (String c (s +:+ "")). rewrite IH. reflexivity.
Qed.

Lemma split_quotes_nonempty s : split_quotes s <> [].
Proof.
  destruct s as [|c s]; simpl; [discriminate|].
  destruct (Ascii.eqb c _); [discriminate|].
  destruct (split_quotes s); discriminate.
Qed.

(** Cutting a concatenation is joining the cuts. *)
Lemma split_quotes_app a b :
  split_quotes (a +:+ b) = glue (split_quotes a) (split_quotes b).
Proof.
  induction a as [|c a IH].
  - change ("" +:+ b) with b. simpl.
    destruct (split_quotes b) eqn:E; [|reflexivity].
    exfalso. exact (split_quotes_nonempty _ E).
  - change (String c a +:+ b) with (String c (a +:+ b)). simpl.
    destruct (Ascii.eqb c _).
    + rewrite IH. destruct (split_quotes a) eqn:E; [|reflexivity].
      exfalso. exact (split_quotes_nonempty _ E).
    + rewrite IH.
      destruct (split_quotes a) as [|x [|y l]] eqn:E.
      * exfalso. exact (split_quotes_nonempty _ E).
      * simpl. destruct (split_quotes b); reflexivity.
      * simpl. reflexivity.
Qed.

(** A number in decimal holds no double quote. *)
Lemma split_quotes_uint d :
  split_quotes (NilEmpty.string_of_uint d) = [NilEmpty.string_of_uint d].
Proof.
  induction d; simpl; try rewrite IHd; reflexivity.
Qed.

Lemma split_quotes_str z : split_quotes (str z) = [str z].
Proof.
  unfold str, NilZero.string_of_int, NilZero.string_of_uint.
  destruct (Z.to_int z) as [d|d]; destruct d; try reflexivity;
    try (apply (split_quotes_uint (_ _)));
    simpl; try rewrite split_quotes_uint; reflexivity.
Qed.

(** The attributes read back from a rendered badge. *)
Lemma render_badge_fields label message color :
  split_quotes color = [color] ->
  svg_width (render_badge label message color) =
    Some (str (Z.of_nat (String.length message) * 6 + 20 + 80)) /\
  segment_fill (render_badge label message color) = Some color /\
  segment_path (render_badge label message color) =
    Some ("M60 0h" +:+ str (Z.of_nat (String.length message) * 6 + 20)
            +:+ "v20H60z").
Proof.
  intros Hc. unfold svg_width, segment_fill, segment_path, render_badge.
  cbv zeta.
  rewrite !split_quotes_app, !split_quotes_str, Hc.
  generalize (str (Z.of_nat (String.length message) * 6 + 20 + 80)).
  generalize (str (Z.of_nat (String.length message) * 6 + 20)).
  generalize (str (60 + (Z.of_nat (String.length message) * 6 + 20) / 2)).
  intros s1 s2 s3.
  generalize (split_quotes message) (split_quotes label). intros lm ll.
  cbn. change ("" +:+ s3 +:+ "") with (s3 +:+ "").
  change ("" +:+ color +:+ "") with (color +:+ "").
  rewrite !append_empty_r. repeat split.
Qed.

(** Each badge function renders with the common template. *)
Lemma create_security_badge_render score grade issues_count :
  svg_of (create_security_badge score grade issues_count) =
  render_badge "security"
    (message_of (create_security_badge score grade issues_count))
    (color_of (create_security_badge score grade issues_count)).
Proof.
  unfold create_security_badge. by_bands.
Qed.

Lemma create_issues_badge_render issues_count :
  svg_of (create_issues_badge issues_count) =
  render_badge "issues"
    (message_of (create_issues_badge issues_count))
    (color_of (create_issues_badge issues_count)).
Proof.
  unfold create_issues_badge. by_bands.
Qed.

Lemma generate_coverage_badge_render
    (float : Type) (ge : float -> Z -> bool) (format_1f : float -> string)
    (coverage_percent : option float) :
  svg_of (generate_coverage_badge float ge format_1f coverage_percent) =
  render_badge "coverage"
    (message_of (generate_coverage_badge float ge format_1f coverage_percent))
    (color_of (generate_coverage_badge float ge format_1f coverage_percent)).
Proof.
  unfold generate_coverage_badge.
  destruct coverage_percent as [c|]; by_bands.
Qed.

(** The colour of either badge of [security-badge.py] holds no double
    quote. *)
Lemma create_security_badge_color score grade issues_count :
  split_quotes (color_of (create_security_badge score grade issues_count)) =
  [color_of (create_security_badge score grade issues_count)].
Proof.
  unfold create_security_badge. by_bands.
Qed.

Lemma create_issues_badge_color issues_count :
  split_quotes (color_of (create_issues_badge issues_count)) =
  [color_of (create_issues_badge issues_count)].
Proof.
  unfold create_issues_badge. by_bands.
Qed.

End BadgeText.

Section Badges.

Ltac color_bands :=
  unfold create_security_badge, color_of;
  repeat case_match; simplify_eq/=; try reflexivity; lia.

(** C7, as the specification states it: a score from 80 would be green and
    a score from 70 yellow.  A score of 85 is rendered yellow and a score
    of 75 orange. *)
Lemma security_badge_color_counterexample :
  color_of (create_security_badge 85 "B" 4) = "yellow" /\
  color_of (create_security_badge 85 "B" 4) <> claimed_badge_color 85 /\
  color_of (create_security_badge 75 "C" 8) = "orange" /\
  color_of (create_security_badge 75 "C" 8) <> claimed_badge_color 75.
Proof.
  repeat split; try reflexivity; vm_compute; discriminate.
Qed.

(** C7, amended: the colour of the security-score badge follows the cut
    points 95, 90, 80 and 70: bright green from 95, green from 90 to 94,
    yellow from 80 to 89, orange from 70 to 79, and red below 70 (so also
    below 60); the right segment of the rendered badge is filled with
    that colour. *)
Theorem security_badge_color_bands score grade issues_count :
  let badge := create_security_badge score grade issues_count in
  (95 <= score -> color_of badge = "brightgreen") /\
  (90 <= score < 95 -> color_of badge = "green") /\
  (80 <= score < 90 -> color_of badge = "yellow") /\
  (70 <= score < 80 -> color_of badge = "orange") /\
  (score < 70 -> color_of badge = "red") /\
  segment_fill (svg_of badge) = Some (color_of badge).
Proof.
  cbv zeta. repeat split; try (intros H; color_bands).
  rewrite create_security_badge_render.
  apply render_badge_fields, create_security_badge_color.
Qed.

Lemma security_badge_color_bands_witness :
  color_of (create_security_badge 100 "A+" 0) = "brightgreen" /\
  color_of (create_security_badge 92 "A" 0) = "green" /\
  color_of (create_security_badge 85 "B" 4) = "yellow" /\
  color_of (create_security_badge 70 "C" 9) = "orange" /\
  color_of (create_security_badge 50 "F" 20) = "red".
Proof.
  split; [apply (security_badge_color_bands 100 "A+" 0); lia|].
  split; [apply (security_badge_color_bands 92 "A" 0); lia|].
  split; [apply (security_badge_color_bands 85 "B" 4); lia|].
  split; [apply (security_badge_color_bands 70 "C" 9); lia|].
  apply (security_badge_color_bands 50 "F" 20); lia.
Defined.

(** Two calls of a badge function that return the same message and colour
    return the same text, whatever else differs between them. *)
Lemma create_security_badge_same_text s1 g1 n1 s2 g2 n2 :
  message_of (create_security_badge s1 g1 n1) =
    message_of (create_security_badge s2 g2 n2) ->
  color_of (create_security_badge s1 g1 n1) =
    color_of (create_security_badge s2 g2 n2) ->
  svg_of (create_security_badge s1 g1 n1) =
    svg_of (create_security_badge s2 g2 n2).
Proof.
  intros Hm Hc. rewrite !create_security_badge_render, Hm, Hc. reflexivity.
Qed.

Lemma create_issues_badge_same_text n1 n2 :
  message_of (create_issues_badge n1) = message_of (create_issues_badge n2) ->
  color_of (create_issues_badge n1) = color_of (create_issues_badge n2) ->
  svg_of (create_issues_badge n1) = svg_of (create_issues_badge n2).
Proof.
  intros Hm Hc. rewrite !create_issues_badge_render, Hm, Hc. reflexivity.
Qed.

Lemma generate_coverage_badge_same_text
    (float : Type) (ge : float -> Z -> bool) (format_1f : float -> string)
    (c1 c2 : option float) :
  message_of (generate_coverage_badge float ge format_1f c1) =
    message_of (generate_coverage_badge float ge format_1f c2) ->
  color_of (generate_coverage_badge float ge format_1f c1) =
    color_of (generate_coverage_badge float ge format_1f c2) ->
  svg_of (generate_coverage_badge float ge format_1f c1) =
    svg_of (generate_coverage_badge float ge format_1f c2).
Proof.
  intros Hm Hc. rewrite !generate_coverage_badge_render, Hm, Hc. reflexivity.
Qed.

(** C9: in a rendered issues badge the right segment is
    [len(message) * 6 + 20] wide and the badge 80 more; the same holds for
    the security-score badge.  "0 issues" gives a total width of 148 and
    "12 issues" one of 154. *)
Theorem badge_width_from_message_length :
  (forall issues_count,
     let badge := create_issues_badge issues_count in
     let text_width := Z.of_nat (String.length (message_of badge)) * 6 + 20 in
     segment_path (svg_of badge) =
       Some ("M60 0h" +:+ str text_width +:+ "v20H60z") /\
     svg_width (svg_of badge) = Some (str (text_width + 80))) /\
  (forall score grade issues_count,
     let badge := create_security_badge score grade issues_count in
     let text_width := Z.of_nat (String.length (message_of badge)) * 6 + 20 in
     segment_path (svg_of badge) =
       Some ("M60 0h" +:+ str text_width +:+ "v20H60z") /\
     svg_width (svg_of badge) = Some (str (text_width + 80))) /\
  message_of (create_issues_badge 0) = "0 issues" /\
  svg_width (svg_of (create_issues_badge 0)) = Some "148" /\
  message_of (create_issues_badge 12) = "12 issues" /\
  svg_width (svg_of (create_issues_badge 12)) = Some "154".
Proof.
  split; [|split].
  - intros n. cbv zeta. rewrite create_issues_badge_render.
    destruct (render_badge_fields "issues"
                (message_of (create_issues_badge n))
                (color_of (create_issues_badge n))
                (create_issues_badge_color n)) as (Hw & _ & Hp).
    split; assumption.
  - intros score grade n. cbv zeta. rewrite create_security_badge_render.
    destruct (render_badge_fields "security"
                (message_of (create_security_badge score grade n))
                (color_of (create_security_badge score grade n))
                (create_security_badge_color score grade n)) as (Hw & _ & Hp).
    split; assumption.
  - repeat split; vm_compute; reflexivity.
Qed.

(** The badge for a run without issues, in full. *)
Example create_issues_badge_clean :
  create_issues_badge 0 =
  (tpl "<svg xmlns='http://www.w3.org/2000/svg' width='148' height='20'>
  <linearGradient id='b' x2='0' y2='100%'>
    <stop offset='0' stop-color='#bbb' stop-opacity='.1'/>
    <stop offset='1' stop-opacity='.1'/>
  </linearGradient>
  <mask id='a'>
    <rect width='100%' height='100%' rx='3' fill='#fff'/>
  </mask>
  <g mask='url(#a)'>
    <path fill='#555' d='M0 0h60v20H0z'/>
    <path fill='brightgreen' d='M60 0h68v20H60z'/>
  </g>
  <rect width='100%' height='100%' rx='3' fill='none' stroke='rgba(0,0,0,.1)'/>
  <g fill='#fff' text-anchor='middle' font-family='DejaVu Sans,Verdana,Geneva,sans-serif' font-size='11'>
    <text x='30' y='14' fill='#010101' fill-opacity='.3'>issues</text>
    <text x='30' y='13' fill='#fff'>issues</text>
    <text x='94' y='14' fill='#010101' fill-opacity='.3'>0 issues</text>
    <text x='94' y='13' fill='#fff'>0 issues</text>
  </g>
</svg>",
   "clean", "brightgreen", "0 issues").
Proof. vm_compute. reflexivity. Qed.

End Badges.

(** * Further properties *)

Import Output Layout.

(** ** The summary of a generated report *)

Ltac open_block H :=
  unfold process_checkov, process_trivy, process_gosec, process_semgrep in H;
  destruct (truthy _); simpl in H;
  repeat match type of H with
  | _ ≫= _ = Ok _ => apply bind_Ok_inv in H as (? & ? & H)
  end;
  injection H as <-; simpl.

Ltac open_ops :=
  repeat match goal with
  | H : add _ ?v = Ok _ |- _ => is_var v; destruct v; simpl in *; simplify_eq
  | H : len ?v = Ok _ |- _ => is_var v; destruct v; simpl in *; simplify_eq
  end.

Lemma process_checkov_balanced v r r' :
  process_checkov v r = Ok r' ->
  balanced (r_summary r) -> balanced (r_summary r').
Proof.
  unfold balanced. intros H Hb. open_block H; open_ops; simpl; lia.
Qed.

Lemma process_trivy_balanced v r r' :
  process_trivy v r = Ok r' ->
  balanced (r_summary r) -> balanced (r_summary r').
Proof.
  unfold balanced. intros H Hb. open_block H; open_ops; simpl; lia.
Qed.

Lemma process_gosec_balanced v r r' :
  process_gosec v r = Ok r' ->
  balanced (r_summary r) -> balanced (r_summary r').
Proof.
  unfold balanced. intros H Hb. open_block H; open_ops; simpl; lia.
Qed.

Lemma process_semgrep_balanced v r r' :
  process_semgrep v r = Ok r' ->
  balanced (r_summary r) -> balanced (r_summary r').
Proof.
  unfold balanced. intros H Hb. open_block H; open_ops; simpl; lia.
Qed.

(** Only the checkov block can lower a count: the three other blocks add a
    length. *)
Lemma process_trivy_grows v r r' :
  process_trivy v r = Ok r' ->
  high_issues (r_summary r) <= high_issues (r_summary r') /\
  medium_issues (r_summary r') = medium_issues (r_summary r) /\
  low_issues (r_summary r') = low_issues (r_summary r).
Proof.
  intros H. open_block H; open_ops; simpl; lia.
Qed.

Lemma process_gosec_grows v r r' :
  process_gosec v r = Ok r' ->
  high_issues (r_summary r') = high_issues (r_summary r) /\
  medium_issues (r_summary r) <= medium_issues (r_summary r') /\
  low_issues (r_summary r') = low_issues (r_summary r).
Proof.
  intros H. open_block H; open_ops; simpl; lia.
Qed.

Lemma process_semgrep_grows v r r' :
  process_semgrep v r = Ok r' ->
  high_issues (r_summary r') = high_issues (r_summary r) /\
  medium_issues (r_summary r') = medium_issues (r_summary r) /\
  low_issues (r_summary r) <= low_issues (r_summary r').
Proof.
  intros H. open_block H; open_ops; simpl; lia.
Qed.

Lemma process_checkov_keeps v r r' :
  process_checkov v r = Ok r' ->
  high_issues (r_summary r') = high_issues (r_summary r) /\
  low_issues (r_summary r') = low_issues (r_summary r).
Proof.
  intros H. open_block H; open_ops; simpl; lia.
Qed.

(** The summary of a generated report: the total is the sum of the high,
    medium and low counts, nothing is ever counted as critical or info,
    and the high and low counts are lengths. *)
Lemma generated_summary_balance fs now rep :
  generate_security_report fs now = Ok rep ->
  total_issues (r_summary rep) =
    high_issues (r_summary rep) + medium_issues (r_summary rep)
    + low_issues (r_summary rep) /\
  critical_issues (r_summary rep) = 0 /\
  info_issues (r_summary rep) = 0 /\
  0 <= high_issues (r_summary rep) /\
  0 <= low_issues (r_summary rep).
Proof.
  intros Hrun.
  destruct (generated_report_invariant _ _ _ Hrun) as (_ & Hc & Hi).
  apply generate_security_report_Ok_inv in Hrun
    as (v1 & v2 & v3 & v4 & r1 & r2 & r3 & r4
        & L1 & L2 & L3 & L4 & H1 & H2 & H3 & H4 & ->).
  assert (Hb : balanced (r_summary (finish r4))).
  { simpl.
    apply (process_semgrep_balanced _ _ _ H4), (process_gosec_balanced _ _ _ H3),
      (process_trivy_balanced _ _ _ H2), (process_checkov_balanced _ _ _ H1).
    reflexivity. }
  unfold balanced in Hb. rewrite Hc, Hi in Hb.
  destruct (process_checkov_keeps _ _ _ H1) as (Hh1 & Hl1).
  destruct (process_trivy_grows _ _ _ H2) as (Hh2 & _ & Hl2).
  destruct (process_gosec_grows _ _ _ H3) as (Hh3 & _ & Hl3).
  destruct (process_semgrep_grows _ _ _ H4) as (Hh4 & _ & Hl4).
  simpl in *. lia.
Qed.

(** X1: in every generated report [total_issues] is the sum of the high,
    medium and low counts; the critical and info counts are 0; the high
    and low counts are not negative. *)
Theorem total_is_sum_of_buckets fs now rep :
  generate_security_report fs now = Ok rep ->
  total_issues (r_summary rep) =
    high_issues (r_summary rep) + medium_issues (r_summary rep)
    + low_issues (r_summary rep) /\
  critical_issues (r_summary rep) = 0 /\
  info_issues (r_summary rep) = 0 /\
  0 <= high_issues (r_summary rep) /\
  0 <= low_issues (r_summary rep).
Proof. exact (generated_summary_balance fs now rep). Qed.

Lemma total_is_sum_of_buckets_witness :
  exists rep,
    generate_security_report scenario_fs "2024-05-01T12:00:00" = Ok rep /\
    total_issues (r_summary rep) =
      high_issues (r_summary rep) + medium_issues (r_summary rep)
      + low_issues (r_summary rep).
Proof.
  eexists. split; [vm_compute; reflexivity|].
  refine (proj1 (total_is_sum_of_buckets scenario_fs "2024-05-01T12:00:00" _ _)).
  vm_compute. reflexivity.
Defined.

(** A dict with a key is not empty, hence truthy. *)
Lemma truthy_object (m : gmap string json) key v :
  m !! key = Some v -> truthy (JObj m) = true.
Proof.
  intros H. simpl. destruct (size m) eqn:E; [|reflexivity].
  apply map_size_empty_iff in E. subst m. rewrite lookup_empty in H.
  discriminate H.
Qed.


(** Each block leaves an entry of the expected shape under its own key. *)
Lemma tool_table_entry name path process v r r' :
  In (name, path, process) tool_table ->
  process v r = Ok r' ->
  exists entry, r_tools r' = <[name := entry]> (r_tools r) /\
    tool_entry_shape entry.
Proof.
  intros [H|[H|[H|[H|[]]]]] Hp; injection H as <- <- <-; open_block Hp;
    eexists; (split; [reflexivity|]); eexists; (split; [reflexivity|]);
    first [ left; split; reflexivity
          | right; split; [reflexivity | eexists; reflexivity] ].
Qed.

(** X2: a generated report has an entry for each of the four tools and for
    nothing else; every entry is a dict whose status is "failed" with 0
    issues found, or "completed" with some [issues_found]. *)
Theorem tools_of_a_report fs now rep :
  generate_security_report fs now = Ok rep ->
  dom (r_tools rep) = {[ "checkov"; "trivy"; "gosec"; "semgrep" ]} /\
  (forall name entry, r_tools rep !! name = Some entry ->
     tool_entry_shape entry).
Proof.
  intros Hrun.
  apply generate_security_report_Ok_inv in Hrun
    as (v1 & v2 & v3 & v4 & r1 & r2 & r3 & r4
        & L1 & L2 & L3 & L4 & H1 & H2 & H3 & H4 & ->).
  simpl r_tools.
  eapply (tool_table_entry "checkov") in H1 as (e1 & T1 & S1); [|simpl; tauto].
  eapply (tool_table_entry "trivy") in H2 as (e2 & T2 & S2); [|simpl; tauto].
  eapply (tool_table_entry "gosec") in H3 as (e3 & T3 & S3); [|simpl; tauto].
  eapply (tool_table_entry "semgrep") in H4 as (e4 & T4 & S4); [|simpl; tauto].
  rewrite T4, T3, T2, T1. simpl. split.
  - rewrite !dom_insert_L, dom_empty_L. set_solver.
  - intros name entry Hl.
    repeat (apply lookup_insert_Some in Hl as [[_ <-]|[_ Hl]]; [assumption|]).
    rewrite lookup_empty in Hl. discriminate Hl.
Qed.

Lemma tools_of_a_report_witness :
  exists rep,
    generate_security_report scenario_fs "2024-05-01T12:00:00" = Ok rep /\
    dom (r_tools rep) = {[ "checkov"; "trivy"; "gosec"; "semgrep" ]}.
Proof.
  eexists. split; [vm_compute; reflexivity|].
  refine (proj1 (tools_of_a_report scenario_fs "2024-05-01T12:00:00" _ _)).
  vm_compute. reflexivity.
Defined.

(** On a falsy value every block records the tool as failed. *)
Lemma tool_table_on_falsy name path process v r :
  In (name, path, process) tool_table ->
  truthy v = false ->
  process v r = Ok (set_tool name failed_entry r).
Proof.
  intros [H|[H|[H|[H|[]]]]] Ht; injection H as <- <- <-;
    unfold process_checkov, process_trivy, process_gosec, process_semgrep;
    rewrite Ht; reflexivity.
Qed.

Lemma falsy_tool_entry name path process fs v now rep :
  In (name, path, process) tool_table ->
  load_json_file fs path = Ok v ->
  truthy v = false ->
  generate_security_report fs now = Ok rep ->
  r_tools rep !! name = Some failed_entry.
Proof.
  intros Hin Hl Hf Hrun.
  apply generate_security_report_Ok_inv in Hrun
    as (v1 & v2 & v3 & v4 & r1 & r2 & r3 & r4
        & L1 & L2 & L3 & L4 & H1 & H2 & H3 & H4 & ->).
  simpl r_tools.
  pose proof (process_checkov_frame _ _ _ H1) as F1.
  pose proof (process_trivy_frame _ _ _ H2) as F2.
  pose proof (process_gosec_frame _ _ _ H3) as F3.
  pose proof (process_semgrep_frame _ _ _ H4) as F4.
  pose proof (fun r => tool_table_on_falsy _ _ _ _ r Hin Hf) as Hb.
  destruct Hin as [H|[H|[H|[H|[]]]]]; injection H as <- <- <-.
  - rewrite Hl in L1. injection L1 as <-.
    rewrite Hb in H1. injection H1 as <-.
    eapply frame_lookup; [exact F4|discriminate|].
    eapply frame_lookup; [exact F3|discriminate|].
    eapply frame_lookup; [exact F2|discriminate|].
    apply set_tool_lookup.
  - rewrite Hl in L2. injection L2 as <-.
    rewrite Hb in H2. injection H2 as <-.
    eapply frame_lookup; [exact F4|discriminate|].
    eapply frame_lookup; [exact F3|discriminate|].
    apply set_tool_lookup.
  - rewrite Hl in L3. injection L3 as <-.
    rewrite Hb in H3. injection H3 as <-.
    eapply frame_lookup; [exact F4|discriminate|].
    apply set_tool_lookup.
  - rewrite Hl in L4. injection L4 as <-.
    rewrite Hb in H4. injection H4 as <-.
    apply set_tool_lookup.
Qed.

(** X3: an input file that parses to a falsy value (an empty object or
    list, 0, "", false, null) is treated like a missing file: the load
    returns the value, the tool is recorded as failed with 0 issues, and the
    summary is left as it was. *)
Theorem falsy_input_is_failed name path process fs v :
  In (name, path, process) tool_table ->
  fs !! path = Some (Parses v) ->
  truthy v = false ->
  load_json_file fs path = Ok v /\
  (forall r, exists r',
     process v r = Ok r' /\
     r_tools r' !! name =
       Some (JObj (<["status" := JStr "failed"]>
                  (<["issues_found" := JInt 0]> ∅))) /\
     r_summary r' = r_summary r) /\
  (forall now rep, generate_security_report fs now = Ok rep ->
     r_tools rep !! name =
       Some (JObj (<["status" := JStr "failed"]>
                  (<["issues_found" := JInt 0]> ∅)))).
Proof.
  intros Hin Hfs Ht.
  pose proof (load_json_file_Parses _ _ _ Hfs) as Hl.
  split; [exact Hl|]. split.
  - intros r. exists (set_tool name failed_entry r).
    split; [exact (tool_table_on_falsy _ _ _ _ r Hin Ht)|].
    split; [apply set_tool_lookup | reflexivity].
  - intros now rep Hrun.
    exact (falsy_tool_entry _ _ _ _ _ _ _ Hin Hl Ht Hrun).
Qed.

Lemma falsy_input_is_failed_witness :
  load_json_file (<["gosec-results.json" := Parses (JObj ∅)]> scenario_fs)
    "gosec-results.json" = Ok (JObj ∅) /\
  exists r',
    process_gosec (JObj ∅) (initial_report "2024-05-01T12:00:00") = Ok r' /\
    r_tools r' !! "gosec" =
      Some (JObj (<["status" := JStr "failed"]>
                 (<["issues_found" := JInt 0]> ∅))) /\
    r_summary r' = r_summary (initial_report "2024-05-01T12:00:00").
Proof.
  split; [vm_compute; reflexivity|].
  refine (proj1 (proj2 (falsy_input_is_failed "gosec" "gosec-results.json"
                   process_gosec
                   (<["gosec-results.json" := Parses (JObj ∅)]> scenario_fs)
                   (JObj ∅) _ _ _)) _).
  - simpl. tauto.
  - vm_compute. reflexivity.
  - reflexivity.
Defined.



(** X5: a checkov object whose [failed] field is null, a string, a list
    or an object makes the checkov block raise [TypeError] at the [+=] on
    the total: the run returns no report, and it ends with [TypeError]
    when the four loads return. *)
Theorem checkov_count_not_a_number fs m v :
  fs !! "checkov-results.json" = Some (Parses (JObj m)) ->
  m !! "failed" = Some v ->
  v = JNull \/ (exists s, v = JStr s) \/ (exists l, v = JArr l)
    \/ (exists o, v = JObj o) ->
  (forall r, process_checkov (JObj m) r = Raise TypeError) /\
  (forall now rep, generate_security_report fs now <> Ok rep) /\
  ((forall path e, fs !! path <> Some (Fails e)) ->
   forall now, generate_security_report fs now = Raise TypeError).
Proof.
  intros Hfs Hm Hv.
  pose proof (load_json_file_Parses _ _ _ Hfs) as Hl.
  assert (Hblock : forall r, process_checkov (JObj m) r = Raise TypeError).
  { intros r. unfold process_checkov. rewrite (truthy_object _ _ _ Hm).
    unfold get. simpl. rewrite Hm. simpl.
    destruct Hv as [-> | [[s ->] | [[l ->] | [o ->]]]]; reflexivity. }
  split; [exact Hblock|]. split.
  - intros now rep Hok.
    destruct (tool_table_Raise_run "checkov" "checkov-results.json"
                process_checkov fs now) as [e He].
    + simpl. tauto.
    + right. exists (JObj m), TypeError. split; assumption.
    + rewrite Hok in He. discriminate He.
  - intros Hno now. unfold generate_security_report. rewrite Hl.
    cbn [mbind result_bind].
    destruct (load_json_file fs "trivy-results.json") as [v2|e] eqn:L2;
      [|exfalso; exact (Hno _ _ (load_json_file_Raise_inv _ _ _ L2))].
    destruct (load_json_file fs "gosec-results.json") as [v3|e] eqn:L3;
      [|exfalso; exact (Hno _ _ (load_json_file_Raise_inv _ _ _ L3))].
    destruct (load_json_file fs "semgrep-results.json") as [v4|e] eqn:L4;
      [|exfalso; exact (Hno _ _ (load_json_file_Raise_inv _ _ _ L4))].
    cbn [mbind result_bind]. rewrite Hblock. reflexivity.
Qed.

Lemma checkov_count_not_a_number_witness :
  generate_security_report
    (<["checkov-results.json" :=
         Parses (JObj (<["failed" := JStr "2"]> ∅))]> ∅)
    "2024-05-01T12:00:00" = Raise TypeError.
Proof.
  refine (proj2 (proj2 (checkov_count_not_a_number
            (<["checkov-results.json" :=
                 Parses (JObj (<["failed" := JStr "2"]> ∅))]> ∅)
            (<["failed" := JStr "2"]> ∅) (JStr "2") _ _ _)) _ _).
  - vm_compute. reflexivity.
  - vm_compute. reflexivity.
  - right. left. eexists. reflexivity.
  - intros path e H.
    apply lookup_insert_Some in H as [[_ H]|[_ H]]; [discriminate H|].
    rewrite lookup_empty in H. discriminate H.
Defined.

(** X6: a trivy, gosec or semgrep object whose list field is null, a
    boolean or a number is what the load returns, makes the tool's block
    raise [TypeError] at [len], and the run returns no report. *)
Theorem list_field_without_length key path process fs m v :
  In (key, path, process) length_tools ->
  fs !! path = Some (Parses (JObj m)) ->
  m !! key = Some v ->
  v = JNull \/ (exists b, v = JBool b) \/ (exists z, v = JInt z) ->
  load_json_file fs path = Ok (JObj m) /\
  (forall r, process (JObj m) r = Raise TypeError) /\
  (forall now rep, generate_security_report fs now <> Ok rep).
Proof.
  intros Hin Hfs Hm Hv.
  pose proof (load_json_file_Parses _ _ _ Hfs) as Hl.
  assert (Hblock : forall r, process (JObj m) r = Raise TypeError).
  { intros r.
    destruct Hin as [H|[H|[H|[]]]]; injection H as <- <- <-;
      unfold process_trivy, process_gosec, process_semgrep;
      rewrite (truthy_object _ _ _ Hm); unfold get; simpl; rewrite Hm;
      destruct Hv as [-> | [[b ->] | [z ->]]]; reflexivity. }
  split; [exact Hl|]. split; [exact Hblock|].
  intros now rep Hrun.
  assert (Hin' : exists name, In (name, path, process) tool_table).
  { destruct Hin as [H|[H|[H|[]]]]; injection H as <- <- <-;
      eexists; simpl; eauto 6. }
  destruct Hin' as [name Hin'].
  destruct (tool_table_Raise_run _ _ _ fs now Hin') as [e He].
  { right. exists (JObj m), TypeError. split; assumption. }
  rewrite Hrun in He. discriminate He.
Qed.

Lemma list_field_without_length_witness :
  generate_security_report
    (<["trivy-results.json" := Parses (JObj (<["Results" := JNull]> ∅))]> ∅)
    "2024-05-01T12:00:00" <> Ok (initial_report "2024-05-01T12:00:00").
Proof.
  refine (proj2 (proj2 (list_field_without_length "Results" "trivy-results.json"
            process_trivy
            (<["trivy-results.json" := Parses (JObj (<["Results" := JNull]> ∅))]> ∅)
            (<["Results" := JNull]> ∅) JNull _ _ _ _)) _ _).
  - simpl. tauto.
  - vm_compute. reflexivity.
  - vm_compute. reflexivity.
  - left. reflexivity.
Defined.

(** The blocks carry the creation instant along and do not read it. *)
Lemma tool_table_set_timestamp name path process v now r :
  In (name, path, process) tool_table ->
  process v (set_timestamp now r) =
  match process v r with
  | Ok r' => Ok (set_timestamp now r')
  | Raise e => Raise e
  end.
Proof.
  intros [H|[H|[H|[H|[]]]]]; injection H as <- <- <-;
    unfold process_checkov, process_trivy, process_gosec, process_semgrep;
    destruct (truthy v); try reflexivity; simpl;
    repeat match goal with
    | |- context [get ?a ?b ?c] => destruct (get a b c); simpl; try reflexivity
    | |- context [len ?a] => destruct (len a); simpl; try reflexivity
    | |- context [add ?a ?b] => destruct (add a b); simpl; try reflexivity
    end.
Qed.

(** A run at another instant is the same run with another timestamp. *)
Lemma generate_security_report_at fs now now' :
  generate_security_report fs now' =
  match generate_security_report fs now with
  | Ok rep => Ok (set_timestamp now' rep)
  | Raise e => Raise e
  end.
Proof.
  unfold generate_security_report.
  destruct (load_json_file fs "checkov-results.json") as [v1|e]; simpl;
    [|reflexivity].
  destruct (load_json_file fs "trivy-results.json") as [v2|e]; simpl;
    [|reflexivity].
  destruct (load_json_file fs "gosec-results.json") as [v3|e]; simpl;
    [|reflexivity].
  destruct (load_json_file fs "semgrep-results.json") as [v4|e]; simpl;
    [|reflexivity].
  change (initial_report now') with (set_timestamp now' (initial_report now)).
  rewrite (tool_table_set_timestamp "checkov" "checkov-results.json")
    by (simpl; tauto).
  destruct (process_checkov _ _) as [r1|e]; simpl; [|reflexivity].
  rewrite (tool_table_set_timestamp "trivy" "trivy-results.json")
    by (simpl; tauto).
  destruct (process_trivy _ _) as [r2|e]; simpl; [|reflexivity].
  rewrite (tool_table_set_timestamp "gosec" "gosec-results.json")
    by (simpl; tauto).
  destruct (process_gosec _ _) as [r3|e]; simpl; [|reflexivity].
  rewrite (tool_table_set_timestamp "semgrep" "semgrep-results.json")
    by (simpl; tauto).
  destruct (process_semgrep _ _) as [r4|e]; simpl; reflexivity.
Qed.

(** The timestamp of a generated report is the instant of its run. *)
Lemma generated_report_timestamp fs now rep :
  generate_security_report fs now = Ok rep -> r_timestamp rep = now.
Proof.
  intros Hrun.
  apply generate_security_report_Ok_inv in Hrun
    as (v1 & v2 & v3 & v4 & r1 & r2 & r3 & r4
        & _ & _ & _ & _ & H1 & H2 & H3 & H4 & ->).
  open_block H1; open_block H2; open_block H3; open_block H4; reflexivity.
Qed.

(** X7: the creation instant only ends up in the [timestamp] field: two
    runs on the same files at different instants raise alike or return
    reports that differ in the timestamp alone. *)
Theorem report_but_for_the_timestamp fs now now' :
  generate_security_report fs now' =
  match generate_security_report fs now with
  | Ok rep => Ok (set_timestamp now' rep)
  | Raise e => Raise e
  end /\
  (forall rep, generate_security_report fs now = Ok rep ->
     r_timestamp rep = now).
Proof.
  split.
  - exact (generate_security_report_at fs now now').
  - intros rep. exact (generated_report_timestamp fs now rep).
Qed.

Lemma report_but_for_the_timestamp_witness :
  exists rep,
    generate_security_report scenario_fs "2024-05-01T12:00:00" = Ok rep /\
    r_timestamp rep = "2024-05-01T12:00:00".
Proof.
  eexists. split; [vm_compute; reflexivity|].
  refine (proj2 (report_but_for_the_timestamp scenario_fs
                   "2024-05-01T12:00:00" "2024-05-02T12:00:00") _ _).
  vm_compute. reflexivity.
Defined.

(** X8: the score and grade of a generated report are one of the pairs
    (100, "A+"), (95, "A+"), (85, "B"), (70, "C"), (50, "F"): no generated
    report has grade "A" or "D". *)
Theorem grades_of_generated_reports fs now rep :
  generate_security_report fs now = Ok rep ->
  exists score grade,
    r_security_score rep = Some score /\
    r_security_grade rep = Some grade /\
    In (score, grade)
       [(100, "A+"); (95, "A+"); (85, "B"); (70, "C"); (50, "F")] /\
    grade <> "A" /\ grade <> "D".
Proof.
  intros Hrun.
  apply generate_security_report_Ok_inv in Hrun
    as (v1 & v2 & v3 & v4 & r1 & r2 & r3 & r4
        & _ & _ & _ & _ & _ & _ & _ & _ & ->).
  simpl. do 2 eexists. split; [reflexivity|]. split; [reflexivity|].
  unfold security_score.
  repeat case_match; (split; [simpl; tauto | split; discriminate]).
Qed.

Lemma grades_of_generated_reports_witness :
  exists score grade,
    In (score, grade)
       [(100, "A+"); (95, "A+"); (85, "B"); (70, "C"); (50, "F")] /\
    grade <> "A" /\ grade <> "D".
Proof.
  destruct (grades_of_generated_reports scenario_fs "2024-05-01T12:00:00" _
              ltac:(vm_compute; reflexivity)) as (s & g & _ & _ & H).
  exists s, g. exact H.
Defined.

(** X9: the recommendations of a generated report are a sub-sequence of
    the high, medium and low advisory texts, in that order and without
    repetition; the critical advisory text never appears. *)
Theorem recommendations_sublist fs now rep :
  generate_security_report fs now = Ok rep ->
  sublist (r_recommendations rep) [high_advice; medium_advice; low_advice] /\
  NoDup (r_recommendations rep) /\
  critical_advice ∉ r_recommendations rep.
Proof.
  intros Hrun.
  destruct (generated_report_invariant _ _ _ Hrun) as (-> & Hc & _).
  unfold generate_recommendations. rewrite Hc. simpl.
  assert (Hd : NoDup [high_advice; medium_advice; low_advice]).
  { repeat constructor; rewrite ?elem_of_cons, ?elem_of_nil;
      vm_compute; intuition discriminate. }
  assert (Hn : critical_advice ∉ [high_advice; medium_advice; low_advice]).
  { rewrite !elem_of_cons, elem_of_nil. vm_compute. intuition discriminate. }
  assert (Hs : sublist
                 ((if 0 <? high_issues (r_summary rep) then [high_advice] else []) ++
                  (if 0 <? medium_issues (r_summary rep) then [medium_advice] else []) ++
                  (if 0 <? low_issues (r_summary rep) then [low_advice] else []))%list
                 [high_advice; medium_advice; low_advice]).
  { repeat case_match; simpl; repeat first [apply sublist_skip | apply sublist_cons | apply sublist_nil | constructor]. }
  split; [exact Hs|]. split.
  - eapply sublist_NoDup; eassumption.
  - intros Hin. apply Hn. exact (sublist_subseteq _ _ Hs _ Hin).
Qed.

Lemma recommendations_sublist_witness :
  exists rep,
    generate_security_report scenario_fs "2024-05-01T12:00:00" = Ok rep /\
    critical_advice ∉ r_recommendations rep.
Proof.
  eexists. split; [vm_compute; reflexivity|].
  refine (proj2 (proj2 (recommendations_sublist scenario_fs
                          "2024-05-01T12:00:00" _ _))).
  vm_compute. reflexivity.
Defined.

(** X10: in a generated report whose medium count is not negative, the
    list of recommendations is empty exactly when there is no issue, which
    is exactly when the score is 100. *)
Theorem no_recommendation_iff_no_issue fs now rep :
  generate_security_report fs now = Ok rep ->
  0 <= medium_issues (r_summary rep) ->
  (r_recommendations rep = [] <-> total_issues (r_summary rep) = 0) /\
  (total_issues (r_summary rep) = 0 <-> r_security_score rep = Some 100).
Proof.
  intros Hrun Hm.
  destruct (generated_summary_balance _ _ _ Hrun) as (Ht & Hc & _ & Hh & Hl).
  destruct (generated_report_invariant _ _ _ Hrun) as (-> & _ & _).
  apply generate_security_report_Ok_inv in Hrun
    as (v1 & v2 & v3 & v4 & r1 & r2 & r3 & r4
        & _ & _ & _ & _ & _ & _ & _ & _ & ->).
  simpl in *. unfold generate_recommendations, security_score.
  rewrite Hc. simpl. split; split.
  - repeat case_match; simpl; try discriminate; lia.
  - intros H0. repeat case_match; try reflexivity; lia.
  - intros ->. reflexivity.
  - repeat case_match; intros [=]; lia.
Qed.

Lemma no_recommendation_iff_no_issue_witness :
  exists rep,
    generate_security_report ∅ "2024-05-01T12:00:00" = Ok rep /\
    (r_recommendations rep = [] <-> total_issues (r_summary rep) = 0).
Proof.
  eexists. split; [vm_compute; reflexivity|].
  refine (proj1 (no_recommendation_iff_no_issue ∅ "2024-05-01T12:00:00" _ _ _)).
  - vm_compute. reflexivity.
  - vm_compute. discriminate.
Defined.


(** ** More on the badges *)

(** What [main] of [security-badge.py] does with a report depends on the
    score, the grade and the total of the report alone. *)
Lemma security_badge_main_inputs r r' files :
  r_security_score r = r_security_score r' ->
  r_security_grade r = r_security_grade r' ->
  total_issues (r_summary r) = total_issues (r_summary r') ->
  SecurityBadgeMain.main (Some r) files = SecurityBadgeMain.main (Some r') files.
Proof.
  intros Hs Hg Ht. unfold SecurityBadgeMain.main. rewrite Hs, Hg, Ht.
  reflexivity.
Qed.

(** C8: the text of a badge is a function of its label, message and colour
    and of nothing else.  Each badge function returns the one template
    filled with its label and with the message and colour it returns; so
    two calls that return the same message and colour return the same text,
    byte for byte, whatever else differs between their arguments, and the
    issue count given to [create_security_badge] has no part in its result.
    No instant is embedded: what [main] of [security-badge.py] writes
    depends on the score, the grade and the total of the report alone, and
    two runs of the report generator on the same files at different
    instants, whose reports carry different timestamps, lead to the same
    badge files. *)
Theorem badge_rendering_deterministic :
  (forall score grade issues_count,
     let badge := create_security_badge score grade issues_count in
     svg_of badge = render_badge "security" (message_of badge) (color_of badge)) /\
  (forall issues_count,
     let badge := create_issues_badge issues_count in
     svg_of badge = render_badge "issues" (message_of badge) (color_of badge)) /\
  (forall (float : Type) (ge : float -> Z -> bool)
          (format_1f : float -> string) coverage_percent,
     let badge := generate_coverage_badge float ge format_1f coverage_percent in
     svg_of badge = render_badge "coverage" (message_of badge) (color_of badge)) /\
  (forall s1 g1 n1 s2 g2 n2,
     message_of (create_security_badge s1 g1 n1) =
       message_of (create_security_badge s2 g2 n2) ->
     color_of (create_security_badge s1 g1 n1) =
       color_of (create_security_badge s2 g2 n2) ->
     svg_of (create_security_badge s1 g1 n1) =
       svg_of (create_security_badge s2 g2 n2)) /\
  (forall n1 n2,
     message_of (create_issues_badge n1) = message_of (create_issues_badge n2) ->
     color_of (create_issues_badge n1) = color_of (create_issues_badge n2) ->
     svg_of (create_issues_badge n1) = svg_of (create_issues_badge n2)) /\
  (forall (float : Type) (ge : float -> Z -> bool)
          (format_1f : float -> string) c1 c2,
     message_of (generate_coverage_badge float ge format_1f c1) =
       message_of (generate_coverage_badge float ge format_1f c2) ->
     color_of (generate_coverage_badge float ge format_1f c1) =
       color_of (generate_coverage_badge float ge format_1f c2) ->
     svg_of (generate_coverage_badge float ge format_1f c1) =
       svg_of (generate_coverage_badge float ge format_1f c2)) /\
  (forall score grade n1 n2,
     create_security_badge score grade n1 = create_security_badge score grade n2) /\
  (forall r r' files,
     r_security_score r = r_security_score r' ->
     r_security_grade r = r_security_grade r' ->
     total_issues (r_summary r) = total_issues (r_summary r') ->
     SecurityBadgeMain.main (Some r) files =
       SecurityBadgeMain.main (Some r') files) /\
  (forall fs now now' rep rep' files,
     generate_security_report fs now = Ok rep ->
     generate_security_report fs now' = Ok rep' ->
     r_timestamp rep = now /\ r_timestamp rep' = now' /\
     SecurityBadgeMain.main (Some rep) files =
       SecurityBadgeMain.main (Some rep') files).
Proof.
  split; [exact create_security_badge_render|].
  split; [exact create_issues_badge_render|].
  split; [exact generate_coverage_badge_render|].
  split; [exact create_security_badge_same_text|].
  split; [exact create_issues_badge_same_text|].
  split; [exact generate_coverage_badge_same_text|].
  split; [intros score grade n1 n2; reflexivity|].
  split; [exact security_badge_main_inputs|].
  intros fs now now' rep rep' files Hrun Hrun'.
  split; [exact (generated_report_timestamp _ _ _ Hrun)|].
  split; [exact (generated_report_timestamp _ _ _ Hrun')|].
  rewrite (generate_security_report_at fs now now'), Hrun in Hrun'.
  injection Hrun' as <-.
  apply security_badge_main_inputs; reflexivity.
Qed.

Lemma badge_rendering_deterministic_witness :
  (let ge := fun hundredths bound : Z => bound * 100 <=? hundredths in
   let format_1f := fun hundredths : Z =>
     str ((hundredths + 5) / 10 / 10) +:+ "." +:+
     str (((hundredths + 5) / 10) mod 10) in
   message_of (generate_coverage_badge Z ge format_1f (Some 8731)) = "87.3%" /\
   svg_of (generate_coverage_badge Z ge format_1f (Some 8731)) =
     svg_of (generate_coverage_badge Z ge format_1f (Some 8734))) /\
  SecurityBadgeMain.main
    (Some (finish (set_tool "semgrep" failed_entry
            (set_tool "gosec" failed_entry
            (set_tool "trivy" failed_entry
            (set_tool "checkov" failed_entry
              (initial_report "2024-05-01T12:00:00"))))))) ∅ =
  SecurityBadgeMain.main
    (Some (finish (set_tool "semgrep" failed_entry
            (set_tool "gosec" failed_entry
            (set_tool "trivy" failed_entry
            (set_tool "checkov" failed_entry
              (initial_report "2031-11-30T08:15:00"))))))) ∅.
Proof.
  destruct badge_rendering_deterministic
    as (_ & _ & _ & _ & _ & Hcov & _ & _ & Hrun).
  split.
  - cbv zeta. split; [reflexivity|]. apply Hcov; reflexivity.
  - refine (proj2 (proj2 (Hrun (∅ : gmap string content)
              "2024-05-01T12:00:00" "2031-11-30T08:15:00" _ _
              (∅ : gmap string written) _ _))); reflexivity.
Defined.

Ltac split_bands :=
  repeat match goal with
  | |- context [if ?c then _ else _] => destruct c eqn:?
  end.

(** X11: the issues badge shows [str(issues_count) + " issues"] for every
    count, 0 included; it is bright green and "clean" at 0, yellow and
    "minor" for any other count up to 2 (negative counts included), orange
    and "moderate" from 3 to 5, red and "major" above 5; the right segment
    of the rendered badge is filled with that colour. *)
Theorem create_issues_badge_bands issues_count :
  let badge := create_issues_badge issues_count in
  message_of badge = str issues_count +:+ " issues" /\
  (issues_count = 0 ->
     color_of badge = "brightgreen" /\ status_of badge = "clean") /\
  (issues_count <> 0 -> issues_count <= 2 ->
     color_of badge = "yellow" /\ status_of badge = "minor") /\
  (3 <= issues_count <= 5 ->
     color_of badge = "orange" /\ status_of badge = "moderate") /\
  (5 < issues_count ->
     color_of badge = "red" /\ status_of badge = "major") /\
  segment_fill (svg_of badge) = Some (color_of badge).
Proof.
  cbv zeta. split.
  { unfold create_issues_badge.
    destruct (issues_count =? 0) eqn:E.
    - apply Z.eqb_eq in E. subst. reflexivity.
    - split_bands; reflexivity. }
  split; [intros ->; split; reflexivity|].
  split; [intros H0 H2; unfold create_issues_badge; split_bands;
          split; try reflexivity; lia|].
  split; [intros H; unfold create_issues_badge; split_bands;
          split; try reflexivity; lia|].
  split; [intros H; unfold create_issues_badge; split_bands;
          split; try reflexivity; lia|].
  rewrite create_issues_badge_render.
  apply render_badge_fields, create_issues_badge_color.
Qed.

Lemma create_issues_badge_bands_witness :
  color_of (create_issues_badge (-4)) = "yellow" /\
  status_of (create_issues_badge 4) = "moderate" /\
  color_of (create_issues_badge 6) = "red".
Proof.
  split; [apply (create_issues_badge_bands (-4)); lia|].
  split; [apply (create_issues_badge_bands 4); lia|].
  apply (create_issues_badge_bands 6); lia.
Defined.

(** X12: for an issue count that is not negative, the colour of the
    issues badge and the security score go together: bright green with
    100, yellow with 95, orange with 85, red with 70 or 50. *)
Theorem issues_badge_agrees_with_score n :
  0 <= n ->
  (color_of (create_issues_badge n) = "brightgreen" <-> security_score n = 100) /\
  (color_of (create_issues_badge n) = "yellow" <-> security_score n = 95) /\
  (color_of (create_issues_badge n) = "orange" <-> security_score n = 85) /\
  (color_of (create_issues_badge n) = "red" <-> security_score n <= 70).
Proof.
  intros Hn. unfold create_issues_badge, security_score.
  destruct (n =? 0) eqn:E0; destruct (n <=? 2) eqn:E2;
    destruct (n <=? 5) eqn:E5; destruct (n <=? 10) eqn:E10;
    simpl; repeat split; intros H; try discriminate H; try reflexivity; lia.
Qed.

Lemma issues_badge_agrees_with_score_witness :
  color_of (create_issues_badge 7) = "red" <-> security_score 7 <= 70.
Proof.
  apply (issues_badge_agrees_with_score 7). lia.
Defined.

(** The horizontal centre of the message, read back from a rendered
    badge. *)
Lemma render_badge_message_x label message color :
  split_quotes label = [label] ->
  split_quotes color = [color] ->
  message_x (render_badge label message color) =
    Some (str (60 + (Z.of_nat (String.length message) * 6 + 20) / 2)).
Proof.
  intros Hl Hc. unfold message_x, render_badge. cbv zeta.
  rewrite !split_quotes_app, !split_quotes_str, Hc, Hl.
  generalize (str (Z.of_nat (String.length message) * 6 + 20 + 80)).
  generalize (str (Z.of_nat (String.length message) * 6 + 20)).
  generalize (str (60 + (Z.of_nat (String.length message) * 6 + 20) / 2)).
  intros s1 s2 s3.
  generalize (split_quotes message). intros lm.
  cbn. change ("" +:+ s1 +:+ "") with (s1 +:+ "").
  rewrite append_empty_r. reflexivity.
Qed.

(** Half of the width of the right segment, without rounding. *)
Lemma half_text_width k : 60 + (k * 6 + 20) / 2 = 70 + 3 * k.
Proof.
  replace (k * 6 + 20) with ((3 * k + 10) * 2) by lia.
  rewrite Z.div_mul by lia. lia.
Qed.

(** X13: in a rendered issues or security-score badge the message is
    centred at [70 + 3 * len(message)]: the width of the right segment is
    even, so halving it never rounds. *)
Theorem message_is_centred :
  (forall issues_count,
     let badge := create_issues_badge issues_count in
     message_x (svg_of badge) =
       Some (str (70 + 3 * Z.of_nat (String.length (message_of badge))))) /\
  (forall score grade issues_count,
     let badge := create_security_badge score grade issues_count in
     message_x (svg_of badge) =
       Some (str (70 + 3 * Z.of_nat (String.length (message_of badge))))).
Proof.
  split.
  - intros n. cbv zeta. rewrite create_issues_badge_render.
    rewrite render_badge_message_x;
      [|reflexivity|apply create_issues_badge_color].
    do 2 f_equal. apply half_text_width.
  - intros score grade n. cbv zeta. rewrite create_security_badge_render.
    rewrite render_badge_message_x;
      [|reflexivity|apply create_security_badge_color].
    do 2 f_equal. apply half_text_width.
Qed.

(** The colour of the coverage badge holds no double quote. *)
Lemma generate_coverage_badge_color
    (float : Type) (ge : float -> Z -> bool) (format_1f : float -> string)
    (coverage_percent : option float) :
  split_quotes
    (color_of (generate_coverage_badge float ge format_1f coverage_percent)) =
  [color_of (generate_coverage_badge float ge format_1f coverage_percent)].
Proof.
  unfold generate_coverage_badge.
  destruct coverage_percent as [c|]; split_bands; reflexivity.
Qed.

(** X14: the coverage badge follows the same layout: the widths derive
    from the length of the message and the right segment is filled with
    the returned colour; the badge is light grey with status "unknown"
    exactly when there is no coverage data, and otherwise shows the
    percentage with one decimal followed by "%". *)
Theorem coverage_badge_layout
    (float : Type) (ge : float -> Z -> bool) (format_1f : float -> string)
    (coverage_percent : option float) :
  let badge := generate_coverage_badge float ge format_1f coverage_percent in
  let text_width := Z.of_nat (String.length (message_of badge)) * 6 + 20 in
  svg_width (svg_of badge) = Some (str (text_width + 80)) /\
  segment_path (svg_of badge) =
    Some ("M60 0h" +:+ str text_width +:+ "v20H60z") /\
  segment_fill (svg_of badge) = Some (color_of badge) /\
  (color_of badge = "lightgrey" <-> coverage_percent = None) /\
  (status_of badge = "unknown" <-> coverage_percent = None) /\
  (forall c, coverage_percent = Some c ->
     message_of badge = format_1f c +:+ "%").
Proof.
  cbv zeta.
  destruct (render_badge_fields "coverage"
              (message_of (generate_coverage_badge float ge format_1f coverage_percent))
              (color_of (generate_coverage_badge float ge format_1f coverage_percent))
              (generate_coverage_badge_color _ _ _ _)) as (Hw & Hf & Hp).
  rewrite generate_coverage_badge_render.
  split; [exact Hw|]. split; [exact Hp|]. split; [exact Hf|].
  unfold generate_coverage_badge.
  destruct coverage_percent as [c|].
  - split_bands; simpl;
      (split; [split; intros H; discriminate H|]);
      (split; [split; intros H; discriminate H|]);
      intros c' [= <-]; reflexivity.
  - simpl. repeat split; try reflexivity. intros c' H. discriminate H.
Qed.

Lemma coverage_badge_layout_witness :
  message_of (generate_coverage_badge Z Z.geb (fun z => str z +:+ ".0") (Some 87)) =
  "87.0%".
Proof.
  pose proof (coverage_badge_layout Z Z.geb (fun z => str z +:+ ".0") (Some 87))
    as (_ & _ & _ & _ & _ & H).
  apply (H 87). reflexivity.
Defined.

(** X15: from a report that [generate_security_report] returns, [main] of
    [security-badge.py] writes the two badge files and nothing else, and
    returns the report's score, grade and total; the grade, the status and
    the fill of the score badge go together as A+ / excellent / bright
    green, B / fair / yellow, C / poor / orange, F / critical / red. *)
Theorem badges_of_a_generated_report fs now rep files :
  generate_security_report fs now = Ok rep ->
  exists out score_svg issues_svg,
    SecurityBadgeMain.main (Some rep) files =
      (Some out,
       <["docs/badges/security-issues.svg" := Text issues_svg]>
         (<["docs/badges/security-score.svg" := Text score_svg]> files)) /\
    r_security_score rep = Some (SecurityBadgeMain.o_security_score out) /\
    r_security_grade rep = Some (SecurityBadgeMain.o_security_grade out) /\
    SecurityBadgeMain.o_issues_count out = total_issues (r_summary rep) /\
    In (SecurityBadgeMain.o_security_grade out,
        SecurityBadgeMain.o_security_status out,
        segment_fill score_svg)
       [ ("A+", "excellent", Some "brightgreen");
         ("B", "fair", Some "yellow");
         ("C", "poor", Some "orange");
         ("F", "critical", Some "red") ] /\
    issues_svg = svg_of (create_issues_badge (total_issues (r_summary rep))).
Proof.
  intros Hrun.
  apply generate_security_report_Ok_inv in Hrun
    as (v1 & v2 & v3 & v4 & r1 & r2 & r3 & r4
        & _ & _ & _ & _ & _ & _ & _ & _ & ->).
  unfold SecurityBadgeMain.main. simpl.
  set (n := total_issues (r_summary r4)).
  pose proof (create_security_badge_render
                (security_score n) (get_security_grade (security_score n)) n) as Hr.
  pose proof (render_badge_fields "security"
                (message_of (create_security_badge (security_score n)
                               (get_security_grade (security_score n)) n))
                (color_of (create_security_badge (security_score n)
                               (get_security_grade (security_score n)) n))
                (create_security_badge_color _ _ _)) as (_ & Hf & _).
  rewrite <- Hr in Hf.
  assert (Hin :
    In (get_security_grade (security_score n),
        status_of (create_security_badge (security_score n)
                     (get_security_grade (security_score n)) n),
        Some (color_of (create_security_badge (security_score n)
                     (get_security_grade (security_score n)) n)))
       [ ("A+", "excellent", Some "brightgreen");
         ("B", "fair", Some "yellow");
         ("C", "poor", Some "orange");
         ("F", "critical", Some "red") ]).
  { unfold security_score.
    destruct (n =? 0); [vm_compute; tauto|].
    destruct (n <=? 2); [vm_compute; tauto|].
    destruct (n <=? 5); [vm_compute; tauto|].
    destruct (n <=? 10); vm_compute; tauto. }
  rewrite <- Hf in Hin. clear Hr Hf.
  destruct (create_security_badge (security_score n)
              (get_security_grade (security_score n)) n)
    as [[[svg1 st1] c1] m1].
  destruct (create_issues_badge n) as [[[svg2 st2] c2] m2].
  eexists _, svg1, svg2. split; [reflexivity|]. simpl.
  repeat (split; [reflexivity|]).
  split; [exact Hin|reflexivity].
Qed.

Lemma badges_of_a_generated_report_witness :
  exists out score_svg issues_svg,
    SecurityBadgeMain.main
      (Some (finish (set_tool "semgrep" failed_entry
              (set_tool "gosec" failed_entry
              (set_tool "trivy" failed_entry
              (set_tool "checkov" failed_entry
                (initial_report "2024-05-01T12:00:00"))))))) ∅ =
      (Some out,
       <["docs/badges/security-issues.svg" := Text issues_svg]>
         (<["docs/badges/security-score.svg" := Text score_svg]> ∅)).
Proof.
  assert (Hrun : generate_security_report (∅ : gmap string content)
                   "2024-05-01T12:00:00" =
                 Ok (finish (set_tool "semgrep" failed_entry
                      (set_tool "gosec" failed_entry
                      (set_tool "trivy" failed_entry
                      (set_tool "checkov" failed_entry
                        (initial_report "2024-05-01T12:00:00")))))))
    by reflexivity.
  destruct (badges_of_a_generated_report _ _ _
              (∅ : gmap string written) Hrun)
    as (out & s1 & s2 & Hm & _).
  exists out, s1, s2. exact Hm.
Defined.

Ltac colours :=
  match goal with
  | |- ?a = ?b <-> ?P =>
    let a' := eval vm_compute in a in
    let b' := eval vm_compute in b in
    change (a' = b' <-> P)
  end.

(** X16: for an issue count that is not negative, the score badge and the
    issues badge of the same report have the same colour exactly when
    there is no issue or more than ten. *)
Theorem badge_colours_agree n :
  0 <= n ->
  color_of (create_security_badge (security_score n)
              (get_security_grade (security_score n)) n) =
    color_of (create_issues_badge n) <->
  n = 0 \/ 10 < n.
Proof.
  intros Hn. unfold security_score, create_issues_badge.
  destruct (n =? 0) eqn:E0; [colours; split; [lia|reflexivity]|].
  destruct (n <=? 2) eqn:E2; [colours; split; [discriminate|lia]|].
  destruct (n <=? 5) eqn:E5; [colours; split; [discriminate|lia]|].
  destruct (n <=? 10) eqn:E10; colours; split;
    try discriminate; try reflexivity; lia.
Qed.

Lemma badge_colours_agree_witness :
  color_of (create_security_badge (security_score 12)
              (get_security_grade (security_score 12)) 12) =
    color_of (create_issues_badge 12) <->
  12 = 0 \/ 10 < 12.
Proof.
  apply (badge_colours_agree 12). lia.
Defined.


(** ** The Checkov badge *)

Import CheckovBadge.

Lemma free_of_app c a b :
  free_of c (a +:+ b) = free_of c a && free_of c b.
Proof.
  induction a as [|x a IH]; [reflexivity|].
  change (String x a +:+ b) with (String x (a +:+ b)). simpl.
  rewrite IH. destruct (Ascii.eqb x c); reflexivity.
Qed.

Lemma replace_spaces_free message :
  free_of " " (replace_spaces message) = true.
Proof.
  induction message as [|x m IH]; [reflexivity|]. simpl.
  destruct (Ascii.eqb x " ") eqn:E.
  - rewrite free_of_app, IH. reflexivity.
  - simpl. rewrite E, IH. reflexivity.
Qed.

Lemma replace_spaces_without_space message :
  free_of " " message = true -> replace_spaces message = message.
Proof.
  induction message as [|x m IH]; [reflexivity|]. simpl.
  destruct (Ascii.eqb x " "); simpl; [discriminate|].
  intros H. rewrite (IH H). reflexivity.
Qed.

(** X17: [generate_badge] of [checkov-badge.py] writes the URL it returns
    to the badge file; the URL holds no space when the colour holds none,
    and a message without space goes into the URL unchanged. *)
Theorem checkov_badge_url score message color files :
  let url := (generate_badge score message color files).1 in
  (generate_badge score message color files).2 =
    <["docs/badges/checkov-security-badge.txt" := Text url]> files /\
  (free_of " " color = true -> free_of " " url = true) /\
  (free_of " " message = true ->
     url = "https://img.shields.io/badge/Checkov_Security-" +:+ message +:+
           "-" +:+ color +:+ "?style=flat-square&logo=checkov").
Proof.
  cbv zeta. unfold generate_badge. simpl. split; [reflexivity|]. split.
  - intros Hc. rewrite !free_of_app, replace_spaces_free, Hc. reflexivity.
  - intros Hm. rewrite (replace_spaces_without_space _ Hm). reflexivity.
Qed.

Lemma checkov_badge_url_witness :
  (generate_badge 85 "85% secure" "yellow" ∅).1 =
  "https://img.shields.io/badge/Checkov_Security-85%%20secure-yellow?style=flat-square&logo=checkov" /\
  free_of " " (generate_badge 85 "85% secure" "yellow" ∅).1 = true.
Proof.
  split; [reflexivity|].
  apply (checkov_badge_url 85 "85% secure" "yellow" ∅). reflexivity.
Defined.

(** X18: [parse_checkov_results] reports a missing results file as
    (0, "No results", "lightgrey"), and as (0, "Parse error", "lightgrey")
    a file that does not parse, a value that is not an object, a [summary]
    that is not an object, a [failed] or [passed] count that is not a
    number, and a file on which [open] or [json.load] raises any other
    exception. *)
Theorem parse_checkov_results_failures (percent : Z -> Z -> option Z) fs :
  (fs !! "checkov_results.json" = None ->
     parse_checkov_results percent fs = (0, "No results", "lightgrey")) /\
  (fs !! "checkov_results.json" = Some Unparsable ->
     parse_checkov_results percent fs = (0, "Parse error", "lightgrey")) /\
  (forall v, fs !! "checkov_results.json" = Some (Parses v) ->
     is_object v = false ->
     parse_checkov_results percent fs = (0, "Parse error", "lightgrey")) /\
  (forall m s, fs !! "checkov_results.json" = Some (Parses (JObj m)) ->
     m !! "summary" = Some s -> is_object s = false ->
     parse_checkov_results percent fs = (0, "Parse error", "lightgrey")) /\
  (forall m s f p, fs !! "checkov_results.json" = Some (Parses (JObj m)) ->
     default (JObj ∅) (m !! "summary") = JObj s ->
     default (JInt 0) (s !! "failed") = f ->
     default (JInt 0) (s !! "passed") = p ->
     number f = None \/ number p = None ->
     parse_checkov_results percent fs = (0, "Parse error", "lightgrey")) /\
  (forall e, fs !! "checkov_results.json" = Some (Fails e) ->
     parse_checkov_results percent fs = (0, "Parse error", "lightgrey")).
Proof.
  unfold parse_checkov_results.
  split; [intros ->; reflexivity|].
  split; [intros ->; reflexivity|].
  split; [intros v -> Hv; destruct v; try discriminate Hv; reflexivity|].
  split; [|split; [|intros e ->; reflexivity]].
  - intros m s -> Hs Ho. simpl. rewrite Hs. simpl.
    destruct s; try discriminate Ho; reflexivity.
  - intros m s f p -> Hs Hf Hp Hn. simpl. rewrite Hs. simpl.
    rewrite Hf, Hp. simpl.
    destruct Hn as [Hn|Hn].
    + destruct f; try discriminate Hn; destruct p; try reflexivity.
      all: simpl.
      all: try reflexivity.
      all: unfold equals_zero; simpl.
      all: reflexivity.
    + destruct p; try discriminate Hn; destruct f; try reflexivity.
      all: simpl.
      all: try reflexivity.
      all: unfold equals_zero; simpl.
      all: reflexivity.
Qed.

Lemma parse_checkov_results_failures_witness :
  parse_checkov_results (fun p t => Some (p * 100 / t)) ∅ =
    (0, "No results", "lightgrey") /\
  parse_checkov_results (fun p t => Some (p * 100 / t))
    (<["checkov_results.json" := Parses (JArr [JInt 1])]> ∅) =
    (0, "Parse error", "lightgrey").
Proof.
  split.
  - apply (parse_checkov_results_failures _ ∅). reflexivity.
  - refine (proj1 (proj2 (proj2 (parse_checkov_results_failures _
              (<["checkov_results.json" := Parses (JArr [JInt 1])]> ∅))))
              (JArr [JInt 1]) _ _); reflexivity.
Defined.






(** The colour that [parse_checkov_results] returns is one of four. *)
Lemma parse_checkov_results_color (percent : Z -> Z -> option Z) fs :
  In (parse_checkov_results percent fs).2
     ["lightgrey"; "brightgreen"; "yellow"; "red"].
Proof.
  unfold parse_checkov_results.
  destruct (fs !! "checkov_results.json") as [[|v|e]|]; simpl; try tauto.
  repeat match goal with
  | |- context [@mbind option _ _ _ _ ?m] => destruct m; simpl; try tauto
  | |- context [if ?c then _ else _] => destruct c; simpl; try tauto
  end.
Qed.

(** X20: whatever the results file holds, [main] of [checkov-badge.py]
    exits with code 0 and writes one file, the badge URL, which holds no
    space. *)
Theorem checkov_main_writes_a_url (percent : Z -> Z -> option Z) fs files :
  exists url,
    main percent fs files =
      (0, <["docs/badges/checkov-security-badge.txt" := Text url]> files) /\
    free_of " " url = true.
Proof.
  unfold main.
  pose proof (parse_checkov_results_color percent fs) as Hc.
  destruct (parse_checkov_results percent fs) as [[score message] color].
  simpl in Hc.
  unfold generate_badge. eexists. split; [reflexivity|].
  rewrite !free_of_app, replace_spaces_free.
  destruct Hc as [<-|[<-|[<-|[<-|[]]]]]; reflexivity.
Qed.


(** ** The release badge *)

Import ReleaseBadge.

(** Leading letters v in front of a version do not change what is left
    after stripping. *)
Lemma lstrip_v_vs n version : lstrip_v (vs n +:+ version) = lstrip_v version.
Proof.
  induction n as [|n IH]; [reflexivity|].
  change (vs (S n) +:+ version) with (String "v" (vs n +:+ version)).
  simpl. exact IH.
Qed.

(** What is left after stripping does not start with the letter v. *)
Lemma lstrip_v_head version rest : lstrip_v version <> String "v" rest.
Proof.
  revert rest. induction version as [|c s IH]; intros rest; [discriminate|].
  simpl. destruct (Ascii.eqb c "v") eqn:E; [apply IH|].
  intros [= -> _]. discriminate E.
Qed.

(** X21: [lstrip('v')] removes every leading letter v, not only the first:
    the version is its stripped form preceded by letters v only, the
    stripped form does not start with v, and stripping again changes
    nothing. *)
Theorem lstrip_v_strips_every_leading_v version :
  (exists n, version = vs n +:+ lstrip_v version) /\
  (forall rest, lstrip_v version <> String "v" rest) /\
  lstrip_v (lstrip_v version) = lstrip_v version /\
  (forall n, lstrip_v (vs n +:+ version) = lstrip_v version).
Proof.
  split; [|split; [|split]].
  - induction version as [|c s [n IH]]; [exists O; reflexivity|].
    simpl. destruct (Ascii.eqb c "v") eqn:E.
    + apply Ascii.eqb_eq in E. subst c. exists (S n).
      change (vs (S n) +:+ lstrip_v s) with (String "v" (vs n +:+ lstrip_v s)).
      rewrite <- IH. reflexivity.
    + exists O. reflexivity.
  - intros rest. apply lstrip_v_head.
  - induction version as [|c s IH]; [reflexivity|].
    simpl. destruct (Ascii.eqb c "v") eqn:E; [exact IH|].
    simpl. rewrite E. reflexivity.
  - intros n. apply lstrip_v_vs.
Qed.

Lemma lstrip_v_strips_every_leading_v_witness :
  lstrip_v "vv2.0" <> "v2.0" /\ lstrip_v "vv2.0" = "2.0".
Proof.
  split; [|reflexivity].
  apply (proj1 (proj2 (lstrip_v_strips_every_leading_v "vv2.0"))).
Defined.

(** X22: a version gives the same badge URL and the same clean version
    with or without leading letters v; the URL is
    [.../Release-v<clean_version>-blue?...] and the clean version does not
    start with v. *)
Theorem same_badge_with_or_without_v n version :
  generate_badge (JStr (vs n +:+ version)) = generate_badge (JStr version) /\
  exists clean_version,
    generate_badge (JStr version) =
      Ok ("https://img.shields.io/badge/Release-v" +:+ clean_version +:+
          "-blue?style=flat-square&logo=github&logoColor=white",
          clean_version) /\
    forall rest, clean_version <> String "v" rest.
Proof.
  split.
  - unfold generate_badge. rewrite lstrip_v_vs. reflexivity.
  - exists (lstrip_v version). split; [reflexivity|].
    intros rest. apply lstrip_v_head.
Qed.

Lemma same_badge_with_or_without_v_witness :
  generate_badge (JStr "v1.4.0") = generate_badge (JStr "1.4.0").
Proof.
  exact (proj1 (same_badge_with_or_without_v 1 "1.4.0")).
Defined.

(** X23: when the request fails, the body is not an object, or the tag
    name is absent or is "unknown", [main] of [release-badge.py] exits with
    code 1 and writes nothing. *)
Theorem release_main_without_version r utcnow files :
  r = Failed \/
  (exists data, r = Body data /\ is_object data = false) \/
  (exists m, r = Body (JObj m) /\
     (m !! "tag_name" = None \/ m !! "tag_name" = Some (JStr "unknown"))) ->
  main r utcnow files = Ok (1, files).
Proof.
  intros [-> | [(data & -> & Hd) | (m & -> & [Hm | Hm])]]; unfold main; simpl.
  - reflexivity.
  - destruct data; try discriminate Hd; reflexivity.
  - rewrite Hm. reflexivity.
  - rewrite Hm. reflexivity.
Qed.

Lemma release_main_without_version_witness :
  main (Body (JArr [])) "2024-05-01T12:00:00" ∅ = Ok (1, ∅).
Proof.
  apply release_main_without_version. right. left.
  exists (JArr []). split; reflexivity.
Defined.

(** X24: for a tag name that is a string other than "unknown", [main]
    exits with code 0 after writing the badge URL, built from the version
    stripped of its leading letters v, and the version record with the
    creation instant followed by "Z"; no other file is touched. *)
Theorem release_main_writes m version utcnow files :
  m !! "tag_name" = Some (JStr version) ->
  version <> "unknown" ->
  let clean_version := lstrip_v version in
  let badge_url :=
    "https://img.shields.io/badge/Release-v" +:+ clean_version +:+
    "-blue?style=flat-square&logo=github&logoColor=white" in
  main (Body (JObj m)) utcnow files =
    Ok (0,
        <["docs/badges/release-info.json" :=
            Dump (JObj (<["version" := JStr version]>
                       (<["clean_version" := JStr clean_version]>
                       (<["badge_url" := JStr badge_url]>
                       (<["last_updated" := JStr (utcnow +:+ "Z")]> ∅)))))]>
          (<["docs/badges/release-version-badge.txt" := Text badge_url]> files)).
Proof.
  intros Hm Hv. cbv zeta. unfold main. simpl. rewrite Hm. simpl.
  rewrite bool_decide_eq_false_2 by exact Hv. reflexivity.
Qed.

Lemma release_main_writes_witness :
  exists files,
    main (Body (JObj (<["tag_name" := JStr "v1.4.0"]> ∅)))
      "2024-05-01T12:00:00" ∅ = Ok (0, files) /\
    files !! "docs/badges/release-version-badge.txt" =
      Some (Text "https://img.shields.io/badge/Release-v1.4.0-blue?style=flat-square&logo=github&logoColor=white").
Proof.
  eexists. split.
  - apply (release_main_writes (<["tag_name" := JStr "v1.4.0"]> ∅) "v1.4.0").
    + vm_compute. reflexivity.
    + discriminate.
  - vm_compute. reflexivity.
Defined.

(** X25: a tag name that is present and is not a string (null, a number,
    a list) makes [main] raise [AttributeError] at [lstrip]: the exception
    is not caught and nothing is written. *)
Theorem release_main_tag_not_a_string m v utcnow files :
  m !! "tag_name" = Some v ->
  (forall s, v <> JStr s) ->
  main (Body (JObj m)) utcnow files = Raise AttributeError.
Proof.
  intros Hm Hv. unfold main. simpl. rewrite Hm.
  destruct v; try reflexivity. exfalso. exact (Hv _ eq_refl).
Qed.

Lemma release_main_tag_not_a_string_witness :
  main (Body (JObj (<["tag_name" := JNull]> ∅))) "2024-05-01T12:00:00" ∅ =
  Raise AttributeError.
Proof.
  apply (release_main_tag_not_a_string (<["tag_name" := JNull]> ∅) JNull).
  - vm_compute. reflexivity.
  - intros s. discriminate.
Defined.

